(** * celespy.astro.astrofunc: the crossing-time search, verified

    A shallow embedding of [src/celespy/astro/astrofunc.py]: the resolvers
    [getLoc], [getSrc], [getTime], the evaluator adapter [getAltaz], the
    three-pass search [getTransit] and its wrappers [riseTime], [setTime]
    and [meridianTime], then [getSep] and the sampling loop of
    [plotElevation].

    Conventions of the embedding.
    - An [astropy.time.Time] is a rational number of days (a Julian Date);
      a [TimeDelta] is a rational number of days.  Angles are rational
      degrees.  Arithmetic is exact: rounding of the floating-point
      representation is not modelled.  Where a property needs the sum of
      several short steps to meet one long step, it says so in a
      hypothesis ([grid_aligned]), which rounded sums need not satisfy.
    - Python's dynamically typed arguments become small tagged unions,
      one constructor per [isinstance] branch of the source.
    - A Python exception is a value of [exn]; a computation returns an
      [outcome].  The [while] loops run on fuel: [OutOfFuel] for every
      amount of fuel means that the Python loop does not terminate.
    - The only effect that is tracked is the call to the external
      alt-az transform: every call made by [getAltaz] is recorded (most
      recent first) in a log of sampled instants.
    - Calls into astropy, numpy and geopy are the fields of the class
      [Externals]. *)

From Stdlib Require Import ZArith QArith Qabs Qround String Ascii List Bool Arith.
From Stdlib Require Import Lia Lqa.
Import ListNotations.

Open Scope string_scope.
Open Scope Q_scope.

(** ** Exceptions and outcomes *)

Inductive exn : Type :=
| ValueError (msg : string)
| AssertionError (msg : string)
| UnboundLocalError (name : string)   (* a NameError: local read before assignment *)
| ExternalError (origin : string).    (* raised inside an external library *)

Inductive outcome (A : Type) : Type :=
| Ret (a : A)
| Raise (e : exn)
| OutOfFuel.

Arguments Ret {A} a.
Arguments Raise {A} e.
Arguments OutOfFuel {A}.

Definition obind {A B : Type} (o : outcome A) (k : A -> outcome B) : outcome B :=
  match o with
  | Ret a => k a
  | Raise e => Raise e
  | OutOfFuel => OutOfFuel
  end.

(** [assert c, msg] *)
Definition py_assert (c : bool) (msg : string) : outcome unit :=
  if c then Ret tt else Raise (AssertionError msg).

(** Reading a local variable that may not have been assigned yet. *)
Definition read_local {A : Type} (name : string) (v : option A) : outcome A :=
  match v with
  | Some a => Ret a
  | None => Raise (UnboundLocalError name)
  end.

(** ** The log of evaluator calls, and the monad of [getAltaz] and [getTransit] *)

Definition Time := Q.
Definition TimeDelta := Q.

Definition Log := list Time.

Definition M (A : Type) : Type := Log -> outcome A * Log.

Definition ret {A : Type} (a : A) : M A := fun log => (Ret a, log).

Definition bind {A B : Type} (m : M A) (k : A -> M B) : M B :=
  fun log =>
    match m log with
    | (Ret a, log') => k a log'
    | (Raise e, log') => (Raise e, log')
    | (OutOfFuel, log') => (OutOfFuel, log')
    end.

Definition lift {A : Type} (o : outcome A) : M A := fun log => (o, log).

Definition raise {A : Type} (e : exn) : M A := lift (Raise e).

Declare Scope py_scope.
Delimit Scope py_scope with py.
Notation "x <- m ;; k" := (bind m (fun x => k))
  (at level 61, m at next level, right associativity) : py_scope.
Notation "m ;;; k" := (bind m (fun _ => k))
  (at level 61, right associativity) : py_scope.
Notation "x <~ o ;; k" := (obind o (fun x => k))
  (at level 61, o at next level, right associativity) : py_scope.
Open Scope py_scope.

(** A Python [while cond: body] whose body may [break].  The loop variables
    are the state [S]; the body says whether it left through [break]. *)
Inductive flow : Type := Break | Next.

Fixpoint while {S : Type} (fuel : nat) (cond : S -> bool)
         (body : S -> M (flow * S)) (s : S) : M S :=
  match fuel with
  | O => lift OutOfFuel
  | Datatypes.S fuel' =>
      if cond s then
        r <- body s ;;
        match r with
        | (Break, s') => ret s'
        | (Next, s') => while fuel' cond body s'
        end
      else ret s
  end.

(** ** Strings: [str.lower] on ASCII text *)

Definition lower_ascii (c : ascii) : ascii :=
  let n := nat_of_ascii c in
  if (65 <=? n)%nat && (n <=? 90)%nat then ascii_of_nat (n + 32) else c.

Fixpoint lower (s : string) : string :=
  match s with
  | EmptyString => EmptyString
  | String c s' => String (lower_ascii c) (lower s')
  end.

(** ** Data model *)

Record EarthLocation : Type := mkEarthLocation { lat : Q; lon : Q }.
Record SkyCoord : Type := mkSkyCoord { ra : Q; dec : Q }.
Record AltAz : Type := mkAltAz { az_deg : Q; alt_deg : Q }.

(** [TimeDelta(v, format='sec')] and [TimeDelta(v, format='jd')], in days. *)
Definition TimeDelta_sec (v : Q) : TimeDelta := v / 86400.
Definition TimeDelta_jd (v : Q) : TimeDelta := v.

(** The arguments as Python passes them: one constructor per [isinstance]
    branch, the last one for every other object ([None] included). *)
Inductive PyLoc : Type :=
| LocStr (s : string)
| LocTuple (xs : list Q)
| LocEarth (l : EarthLocation)
| LocOther.

Inductive PySource : Type :=
| SrcStr (s : string)
| SrcTuple (xs : list Q)
| SrcSky (c : SkyCoord)
| SrcOther.

Inductive PyTime : Type :=
| TimeObj (t : Time)
| TimeStr (s : string)
| TimeNum (x : Q)
| TimeOther.

Definition is_some {A : Type} (o : option A) : bool :=
  match o with Some _ => true | None => false end.
Definition is_none {A : Type} (o : option A) : bool := negb (is_some o).

(** [a <= x <= b] on numbers *)
Definition between (a x b : Q) : bool := Qle_bool a x && Qle_bool x b.

(** ** Construction from numbers

    [EarthLocation(lat=.., lon=..)] and [SkyCoord(ra, dec, frame='icrs')]
    on numbers of degrees: astropy turns down a latitude or a declination
    outside [-90, 90] degrees with a [ValueError] (its message goes on
    with the offending value).  A value of type [EarthLocation] or
    [SkyCoord] stands for an object that was constructed. *)

Definition latitude_ok (x : Q) : bool := between (-90) x 90.

Definition latitude_error : exn :=
  ValueError "Latitude angle(s) must be within -90 deg <= angle <= 90 deg".

Definition EarthLocation_of (lat lon : Q) : outcome EarthLocation :=
  if latitude_ok lat then Ret (mkEarthLocation lat lon)
  else Raise latitude_error.

Definition SkyCoord_of (ra dec : Q) : outcome SkyCoord :=
  if latitude_ok dec then Ret (mkSkyCoord ra dec)
  else Raise latitude_error.

(** ** External collaborators

    What the module calls in astropy, numpy and geopy. *)

Class Externals : Type := {
  (** [Time.now()]: the reading of the clock. *)
  Time_now : Time;
  (** [Time(s)] for a string. *)
  Time_parse : string -> outcome Time;
  (** [Time(x, format=f)] for a format other than ['jd'] and ['mjd']. *)
  Time_other_format : string -> Q -> outcome Time;
  (** [USE_GEOPY], [EarthLocation.of_address] and Nominatim's [geocode]
      (latitude, longitude). *)
  USE_GEOPY : bool;
  of_address : string -> outcome EarthLocation;
  geocode : string -> outcome (Q * Q);
  (** [SkyCoord.from_name] and [get_body]. *)
  from_name : string -> outcome SkyCoord;
  get_body : string -> Time -> EarthLocation -> outcome SkyCoord;
  (** [np.degrees] on one number, and the call [np.degrees(ra, dec)] of
      [getAltaz], whose second argument is numpy's [out]. *)
  np_degrees : Q -> Q;
  np_degrees_out : Q -> Q -> outcome (Q * Q);
  (** [radec.transform_to(AltAz(obstime=time, location=loc))]. *)
  transform_to : SkyCoord -> Time -> EarthLocation -> AltAz
}.

Section Astrofunc.

Context {E : Externals}.

(** [Time(x, format=f)] for a number: a Julian Date, a Modified Julian
    Date (JD - 2400000.5), or another astropy format. *)
Definition Time_of_number (x : Q) (format : string) : outcome Time :=
  if format =? "jd" then Ret x
  else if format =? "mjd" then Ret (x + (24000005 # 10))
  else Time_other_format format x.

(** *** getLoc *)

Definition getLoc (loc : PyLoc) (unit : string) : outcome EarthLocation :=
  match loc with
  | LocStr s =>
      if lower s =? "nenufar" then
        Ret (mkEarthLocation (47376511 # 1000000) (21924002 # 10000000))
      else if negb USE_GEOPY then of_address s
      else
        gloc <~ geocode s ;;
        EarthLocation_of (fst gloc) (snd gloc)
  | LocTuple xs =>
      _ <~ py_assert (length xs =? 2)%nat "Only length 2 tuple is understood." ;;
      let xs := if negb (lower unit =? "deg") then map np_degrees xs else xs in
      EarthLocation_of (nth 0 xs 0) (nth 1 xs 0)
  | LocEarth l => Ret l
  | LocOther =>
      Raise (ValueError
        "loc must be aither a tuple: (lon, lat) in degrees or a string adress.")
  end.

(** *** getTime *)

Definition getTime (time : PyTime) (unit : option string) : outcome Time :=
  match time with
  | TimeObj t => Ret t
  | TimeStr s =>
      if lower s =? "now" then Ret Time_now
      else if lower s =? "tomorrow" then Ret (Time_now + TimeDelta_jd 1)
      else if lower s =? "yesterday" then Ret (Time_now - TimeDelta_jd 1)
      else Time_parse s
  | TimeNum x =>
      let unit := match unit with None => "jd" | Some u => u end in
      Time_of_number x (lower unit)
  | TimeOther => Raise (ValueError "time parameter not understood.")
  end.

(** *** getSrc *)

Definition solar_system_names : list string :=
  ["sun"; "moon"; "jupiter"; "saturn"; "mars"; "venus"].

Definition getSrc (source : PySource) (time : PyTime) (loc : PyLoc)
           (unit : string) : outcome SkyCoord :=
  match source with
  | SrcStr s =>
      if existsb (String.eqb (lower s)) solar_system_names then
        time <~ getTime time None ;;
        loc <~ getLoc loc "deg" ;;
        get_body s time loc
      else from_name s
  | SrcTuple xs =>
      _ <~ py_assert (length xs =? 2)%nat "Only length 2 tuple is understood." ;;
      (* the locals [ra] and [dec] are assigned on one branch only *)
      let '(ra, dec) :=
        if negb (lower unit =? "deg")
        then (Some (np_degrees (nth 0 xs 0)), Some (np_degrees (nth 1 xs 0)))
        else (None, None) in
      ra <~ read_local "ra" ra ;;
      dec <~ read_local "dec" dec ;;
      SkyCoord_of ra dec
  | SrcSky c => Ret c
  | SrcOther => Raise (ValueError "source parameter not understood.")
  end.

(** *** getAltaz *)

Definition getAltaz (source : PySource) (time : PyTime) (loc : PyLoc)
           (unit : string) : M AltAz :=
  radec <- lift
    match source with
    | SrcStr _ =>
        source <~ getSrc source time loc unit ;;
        Ret (ra source, dec source)
    | SrcTuple xs =>
        _ <~ py_assert (length xs =? 2)%nat "Only length 2 tuple is understood." ;;
        let '(ra, dec) := (nth 0 xs 0, nth 1 xs 0) in
        if negb (lower unit =? "deg") then np_degrees_out ra dec
        else Ret (ra, dec)
    | SrcSky c => Ret (ra c, dec c)
    | SrcOther => Raise (ValueError "source parameter not understood.")
    end ;;
  time <- lift (getTime time None) ;;
  loc <- lift (getLoc loc "deg") ;;
  (* [SkyCoord(ra*u.deg, dec*u.deg, frame='icrs')]: numbers read off a
     [SkyCoord] are in range, those of a tuple are checked here *)
  radec <- lift
    match source with
    | SrcTuple _ => SkyCoord_of (fst radec) (snd radec)
    | _ => Ret (mkSkyCoord (fst radec) (snd radec))
    end ;;
  fun log => (Ret (transform_to radec time loc), time :: log).

(** *** getTransit *)

(** The test made at one position of a pass (the [if]/[elif] chain that
    the three loops share): [Some true] when the loop breaks, [Some false]
    when a target kind was selected and the loop goes on, [None] when
    neither the azimuth nor the elevation branch applies. *)
Definition bracket_test (source : SkyCoord) (loc : EarthLocation)
           (az el : option Q) (way : string) (dt : TimeDelta) (time : Time)
  : M (option bool) :=
  if is_some az && is_none el then
    c1 <- getAltaz (SrcSky source) (TimeObj time) (LocEarth loc) "deg" ;;
    c2 <- getAltaz (SrcSky source) (TimeObj (time + dt)) (LocEarth loc) "deg" ;;
    let az := match az with Some a => a | None => 0 end in
    ret (Some (between (az_deg c1) az (az_deg c2)))
  else if is_some el && is_none az then
    c1 <- getAltaz (SrcSky source) (TimeObj time) (LocEarth loc) "deg" ;;
    c2 <- getAltaz (SrcSky source) (TimeObj (time + dt)) (LocEarth loc) "deg" ;;
    let el := match el with Some e => e | None => 0 end in
    if lower way =? "rise" then
      ret (Some (between (alt_deg c1) el (alt_deg c2)))
    else if lower way =? "set" then
      ret (Some (between (alt_deg c2) el (alt_deg c1)))
    else ret (Some false)
  else ret None.

(** The three step sizes, named as the locals of [getTransit]. *)
Definition bigdt : TimeDelta := TimeDelta_sec 1800.
Definition middt : TimeDelta := TimeDelta_sec 300.
Definition smalldt : TimeDelta := TimeDelta_sec 5.

(** [# Find rough time interval]: the body of the first loop, and the loop. *)
Definition coarse_step (source : SkyCoord) (loc : EarthLocation)
           (az el : option Q) (way : string) (time : Time) : M (flow * Time) :=
  r <- bracket_test source loc az el way bigdt time ;;
  match r with
  | Some true => ret (Break, time)
  | Some false => ret (Next, time + bigdt)
  | None => raise (ValueError "either az or el parameters should not be None")
  end.

Definition coarse_search (fuel : nat) (source : SkyCoord) (loc : EarthLocation)
           (az el : option Q) (way : string) (time : Time) : M Time :=
  while fuel (fun time => Qle_bool time (time + TimeDelta_jd 1))
        (coarse_step source loc az el way) time.

(** [# mid search] *)
Definition mid_step (source : SkyCoord) (loc : EarthLocation)
           (az el : option Q) (way : string) (time : Time) : M (flow * Time) :=
  r <- bracket_test source loc az el way middt time ;;
  match r with
  | Some true => ret (Break, time)
  | _ => ret (Next, time + middt)
  end.

Definition mid_search (fuel : nat) (source : SkyCoord) (loc : EarthLocation)
           (az el : option Q) (way : string) (time : Time) : M Time :=
  while fuel (fun time => Qle_bool time (time + bigdt))
        (mid_step source loc az el way) time.

(** [# finer search] *)
Definition fine_step (source : SkyCoord) (loc : EarthLocation)
           (az el : option Q) (way : string) (time : Time) : M (flow * Time) :=
  r <- bracket_test source loc az el way smalldt time ;;
  match r with
  | Some true => ret (Break, time)
  | _ => ret (Next, time + smalldt)
  end.

Definition fine_search (fuel : nat) (source : SkyCoord) (loc : EarthLocation)
           (az el : option Q) (way : string) (time : Time) : M Time :=
  while fuel (fun time => Qle_bool time (time + middt))
        (fine_step source loc az el way) time.

Definition way_ok (way : string) : bool :=
  (lower way =? "rise") || (lower way =? "set").

Definition getTransit (fuel : nat) (source : PySource) (time : PyTime)
           (loc : PyLoc) (az el : option Q) (unit way : string) : M Time :=
  time <- lift (getTime time None) ;;
  loc <- lift (getLoc loc "deg") ;;
  source <- lift (getSrc source (TimeObj time) (LocEarth loc) unit) ;;
  lift (py_assert (way_ok way) "way must be either rise or set") ;;;
  time <- coarse_search fuel source loc az el way time ;;
  time <- mid_search fuel source loc az el way time ;;
  time <- fine_search fuel source loc az el way time ;;
  ret (time + smalldt / 2).

(** *** riseTime, setTime, meridianTime *)

Definition riseTime (fuel : nat) (source : PySource) (time : PyTime)
           (loc : PyLoc) (unit : string) : M Time :=
  getTransit fuel source time loc None (Some 0) unit "rise".

Definition setTime (fuel : nat) (source : PySource) (time : PyTime)
           (loc : PyLoc) (unit : string) : M Time :=
  getTransit fuel source time loc None (Some 0) unit "set".

(** [way] is left to its default, ['rise']. *)
Definition meridianTime (fuel : nat) (source : PySource) (time : PyTime)
           (loc : PyLoc) (unit : string) : M Time :=
  getTransit fuel source time loc (Some 180) None unit "rise".

End Astrofunc.

(** ** The search, read as a pure function of the transform

    These definitions are not in the source: they say what the loops of
    [getTransit] compute, and the lemmas below relate them to the loops. *)

Section SearchModel.

Context {E : Externals}.
Variables (source : SkyCoord) (loc : EarthLocation).
Variables (az el : option Q) (way : string).

(** Exactly one of [az] and [el] is given. *)
Definition one_target : bool := xorb (is_some az) (is_some el).

Definition az_at (t : Time) : Q := az_deg (transform_to source t loc).
Definition alt_at (t : Time) : Q := alt_deg (transform_to source t loc).

(** The value that [bracket_test] returns at [time] for the step [dt]. *)
Definition bracket_value (dt : TimeDelta) (time : Time) : option bool :=
  match az, el with
  | Some a, None => Some (between (az_at time) a (az_at (time + dt)))
  | None, Some e =>
      if lower way =? "rise" then
        Some (between (alt_at time) e (alt_at (time + dt)))
      else if lower way =? "set" then
        Some (between (alt_at (time + dt)) e (alt_at time))
      else Some false
  | _, _ => None
  end.

Definition crossing (dt : TimeDelta) (time : Time) : bool :=
  match bracket_value dt time with
  | Some true => true
  | _ => false
  end.

(** The instant reached after [k] steps of [dt]. *)
Fixpoint advance (dt : TimeDelta) (k : nat) (t : Time) : Time :=
  match k with
  | O => t
  | S k' => advance dt k' (t + dt)
  end.

(** The first instant, among the first [fuel] positions, whose step is a
    crossing bracket. *)
Fixpoint scan (dt : TimeDelta) (fuel : nat) (t : Time) : option Time :=
  match fuel with
  | O => None
  | S fuel' => if crossing dt t then Some t else scan dt fuel' (t + dt)
  end.

(** The instants sampled on the way, in front of [log]. *)
Fixpoint scan_log (dt : TimeDelta) (fuel : nat) (t : Time) (log : Log) : Log :=
  match fuel with
  | O => log
  | S fuel' =>
      if crossing dt t then (t + dt) :: t :: log
      else scan_log dt fuel' (t + dt) ((t + dt) :: t :: log)
  end.

Definition scan_outcome (dt : TimeDelta) (fuel : nat) (t : Time) : outcome Time :=
  match scan dt fuel t with
  | Some t' => Ret t'
  | None => OutOfFuel
  end.

(** The three passes in sequence, and the log they leave. *)
Definition search3 (fuel : nat) (t0 : Time) : outcome Time :=
  t <~ scan_outcome bigdt fuel t0 ;;
  t' <~ scan_outcome middt fuel t ;;
  t'' <~ scan_outcome smalldt fuel t' ;;
  Ret (t'' + smalldt / 2).

Definition search3_log (fuel : nat) (t0 : Time) (log : Log) : Log :=
  let log1 := scan_log bigdt fuel t0 log in
  match scan bigdt fuel t0 with
  | None => log1
  | Some t =>
      let log2 := scan_log middt fuel t log1 in
      match scan middt fuel t with
      | None => log2
      | Some t' => scan_log smalldt fuel t' log2
      end
  end.

End SearchModel.

(** The transform is a function of the instant: two representations of
    the same rational instant give the same angles. *)
Definition transform_respects_time {E : Externals} : Prop :=
  forall (s : SkyCoord) (l : EarthLocation) (t t' : Time),
    t == t' ->
    az_deg (transform_to s t l) == az_deg (transform_to s t' l) /\
    alt_deg (transform_to s t l) == alt_deg (transform_to s t' l).

(** The grid of [n] steps of [small] meets the end of a step of [big]:
    at the instant reached by [n] additions of [small] the transform
    gives the angles that it gives at the instant reached by one
    addition of [big].  Sums of rounded spans need not have it. *)
Definition grid_aligned {E : Externals} (s : SkyCoord) (l : EarthLocation)
           (big small : TimeDelta) (n : nat) : Prop :=
  forall t : Time,
    az_deg (transform_to s (advance small n t) l)
    == az_deg (transform_to s (t + big) l) /\
    alt_deg (transform_to s (advance small n t) l)
    == alt_deg (transform_to s (t + big) l).

(** The part of [getTransit] that follows resolution and validation. *)
Section Passes.

Context {E : Externals}.

Definition passes (fuel : nat) (s : SkyCoord) (l : EarthLocation)
           (az el : option Q) (way : string) (t0 : Time) : M Time :=
  t <- coarse_search fuel s l az el way t0 ;;
  t' <- mid_search fuel s l az el way t ;;
  t'' <- fine_search fuel s l az el way t' ;;
  ret (t'' + smalldt / 2).

End Passes.

(** ** The specification's vocabulary

    The target of a query, its direction and the crossing predicate as the
    specification words them, to be compared with the code. *)

Inductive TargetSpec : Type :=
| Azimuth (deg : Q)
| Elevation (deg : Q).

Inductive Direction : Type := Rise | Setting.

Definition CrossingPredicate (target : TargetSpec) (direction : Direction)
           (c1 c2 : Q) : Prop :=
  match target, direction with
  | Azimuth A, _ => c1 <= A /\ A <= c2
  | Elevation e, Rise => c1 <= e /\ e <= c2
  | Elevation e, Setting => c2 <= e /\ e <= c1
  end.

(** How a target and a direction reach [getTransit]. *)
Definition target_az (target : TargetSpec) : option Q :=
  match target with Azimuth a => Some a | Elevation _ => None end.

Definition target_el (target : TargetSpec) : option Q :=
  match target with Azimuth _ => None | Elevation e => Some e end.

Definition channel (target : TargetSpec) (c : AltAz) : Q :=
  match target with Azimuth _ => az_deg c | Elevation _ => alt_deg c end.

Definition direction_of (way : string) : option Direction :=
  if lower way =? "rise" then Some Rise
  else if lower way =? "set" then Some Setting
  else None.

(** The queries that the specification's [InvalidQuery] rejects: both or
    neither target, or a direction incompatible with an azimuth target,
    for which only the ascending direction is supported. *)
Definition InvalidQuery_spec (az el : option Q) (way : string) : bool :=
  (is_some az && is_some el) || (is_none az && is_none el)
  || (is_some az && negb (lower way =? "rise")).

(** A query is rejected when it ends in one of the two validation errors. *)
Definition rejected {A : Type} (o : outcome A) : bool :=
  match o with
  | Raise (ValueError _) | Raise (AssertionError _) => true
  | _ => false
  end.

(** The body [step] of a pass of stride [dt], run at any instant [t],
    samples the channel at [t] and [t + dt] and leaves the loop exactly
    when the specification's predicate holds of the two samples. *)
Definition step_accepts {E : Externals}
           (step : SkyCoord -> EarthLocation -> option Q -> option Q ->
                   string -> Time -> M (flow * Time))
           (dt : TimeDelta) (target : TargetSpec) (direction : Direction)
           (way : string) (s : SkyCoord) (l : EarthLocation) : Prop :=
  forall (t : Time) (log : Log),
  exists b : bool,
    step s l (target_az target) (target_el target) way t log
    = (Ret (if b then (Break, t) else (Next, t + dt)), (t + dt) :: t :: log) /\
    (b = true <->
     CrossingPredicate target direction
       (channel target (transform_to s t l))
       (channel target (transform_to s (t + dt) l))).

(** ** Synthetic collaborators

    Externals whose resolvers know nothing, around a given transform. *)

Definition synthetic (transform : SkyCoord -> Time -> EarthLocation -> AltAz)
  : Externals :=
  {| Time_now := 2460000;
     Time_parse := fun _ => Raise (ExternalError "Time");
     Time_other_format := fun _ _ => Raise (ExternalError "Time");
     USE_GEOPY := false;
     of_address := fun _ => Raise (ExternalError "of_address");
     geocode := fun _ => Raise (ExternalError "geocode");
     from_name := fun _ => Raise (ExternalError "from_name");
     get_body := fun _ _ _ => Raise (ExternalError "get_body");
     np_degrees := fun x => x * (180 * 113 / 355);
     np_degrees_out := fun _ _ => Raise (ExternalError "degrees");
     transform_to := transform |}.

(** A source that never leaves elevation 45 degrees. *)
Definition circumpolar : Externals :=
  synthetic (fun _ _ _ => mkAltAz 0 45).

(** A source whose day starts at instant 0: its azimuth grows by 360
    degrees a day, its elevation climbs from -90 to 90 degrees in the
    first half of the day and comes down in the second, so that it rises
    at 1/4, crosses azimuth 180 at 1/2 and sets at 3/4. *)
Definition triangle_day : Externals :=
  synthetic (fun _ t _ =>
    mkAltAz (360 * t)
            (if Qle_bool t (1 # 2) then 360 * t - 90 else 270 - 360 * t)).


Definition origin : SkyCoord := mkSkyCoord 0 0.
Definition nenufar : EarthLocation :=
  mkEarthLocation (47376511 # 1000000) (21924002 # 10000000).

(** ** getSep *)

Section Separation.

Context {E : Externals}.

(** [source1.separation(source2)], computed by astropy. *)
Variable separation : SkyCoord -> SkyCoord -> Q.

(** [time] and [loc] default to [None], which is [TimeOther] and [LocOther]. *)
Definition getSep (source1 source2 : PySource) (time : PyTime) (loc : PyLoc)
           (unit : string) : outcome Q :=
  source1 <~ getSrc source1 time loc unit ;;
  source2 <~ getSrc source2 time loc unit ;;
  Ret (separation source1 source2).

End Separation.

(** ** plotElevation, up to the interpolation *)

(** [a[i] = v] on an array; the loop below only writes inside the array. *)
Fixpoint array_set (i : nat) (v : Q) (a : list Q) : list Q :=
  match a, i with
  | [], _ => []
  | _ :: a', O => v :: a'
  | x :: a', S i' => x :: array_set i' v a'
  end.

Section Plot.

Context {E : Externals}.

(** [int((TimeDelta(1, format='jd') / dt).value)]: the quotient of two
    floating-point spans, truncated; it fails when the quotient is not
    finite. *)
Variable day_steps : TimeDelta -> outcome Z.

(** [time.mjd] *)
Variable mjd : Time -> Q.

(** The [for i in np.arange(nvals)] loop, on the indices left to visit. *)
Fixpoint sample_day (source : SkyCoord) (loc : EarthLocation) (unit : string)
         (dt : TimeDelta) (indices : list nat) (times elev : list Q)
         (time : Time) : M (list Q * list Q) :=
  match indices with
  | [] => ret (times, elev)
  | i :: rest =>
      src <- getAltaz (SrcSky source) (TimeObj time) (LocEarth loc) unit ;;
      let times := array_set i (mjd time) times in
      let elev := array_set i (alt_deg src) elev in
      sample_day source loc unit dt rest times elev (time + dt)
  end.

(** The arrays [times] and [elev] that [plotElevation] hands to
    [interp1d]; the interpolation and the drawing that follow are not
    modelled.  [np.zeros] turns down a negative number of values. *)
Definition plotElevation_samples (source : PySource) (time : PyTime)
           (loc : PyLoc) (unit : string) (dt : Q) : M (list Q * list Q) :=
  time <- lift (getTime time None) ;;
  loc <- lift (getLoc loc "deg") ;;
  source <- lift (getSrc source (TimeObj time) (LocEarth loc) unit) ;;
  let dt := TimeDelta_sec dt in
  nvals <- lift (day_steps dt) ;;
  if (nvals <? 0)%Z then
    raise (ValueError "negative dimensions are not allowed")
  else
    let n := Z.to_nat nvals in
    sample_day source loc unit dt (seq 0 n) (repeat 0 n) (repeat 0 n) time.

End Plot.

(** A catalogue that knows one fixed source and the Sun, and a geocoder
    that knows one address, around the transform of [triangle_day]. *)
Definition catalogue : Externals :=
  {| Time_now := 2460000;
     Time_parse := fun _ => Raise (ExternalError "Time");
     Time_other_format := fun _ _ => Raise (ExternalError "Time");
     USE_GEOPY := true;
     of_address := fun _ => Raise (ExternalError "of_address");
     geocode := fun s =>
       if s =? "Paris, France" then Ret (488566 # 10000, 23522 # 10000)
       else Raise (ExternalError "geocode");
     from_name := fun s =>
       if s =? "Cyg A" then Ret (mkSkyCoord (299868 # 1000) (40734 # 1000))
       else Raise (ExternalError "from_name");
     get_body := fun s t _ =>
       if lower s =? "sun" then Ret (mkSkyCoord (t - 2460000) 0)
       else Raise (ExternalError "get_body");
     np_degrees := fun x => x * (180 * 113 / 355);
     np_degrees_out := fun _ _ => Raise (ExternalError "degrees");
     transform_to := transform_to (Externals := triangle_day) |}.

(** ** The step sizes, in days *)

Lemma bigdt_days : bigdt == 1 # 48.
Proof. reflexivity. Qed.

Lemma middt_days : middt == 1 # 288.
Proof. reflexivity. Qed.

Lemma smalldt_days : smalldt == 1 # 17280.
Proof. reflexivity. Qed.

(** Linear arithmetic over the rationals, knowing the three steps. *)
Ltac steps_lra :=
  pose proof bigdt_days; pose proof middt_days; pose proof smalldt_days; lra.

(** ** The loops and the pure search *)

Section SearchLemmas.

Context {E : Externals}.
Variables (source : SkyCoord) (loc : EarthLocation).
Variables (az el : option Q) (way : string).

Lemma getAltaz_resolved (t : Time) (log : Log) :
  getAltaz (SrcSky source) (TimeObj t) (LocEarth loc) "deg" log
  = (Ret (transform_to source t loc), t :: log).
Proof.
  unfold getAltaz, bind, lift; cbn.
  destruct source; reflexivity.
Qed.

Lemma bracket_test_run (dt : TimeDelta) (t : Time) (log : Log) :
  bracket_test source loc az el way dt t log
  = (Ret (bracket_value source loc az el way dt t),
     if one_target az el then (t + dt) :: t :: log else log).
Proof.
  unfold bracket_test, bracket_value, one_target, az_at, alt_at.
  destruct az as [a|], el as [e|];
    cbv [is_some is_none negb andb xorb]; try reflexivity.
  - unfold bind. rewrite !getAltaz_resolved. reflexivity.
  - unfold bind. rewrite !getAltaz_resolved.
    destruct (lower way =? "rise")%string; [reflexivity|].
    destruct (lower way =? "set")%string; reflexivity.
Qed.

(** The loop guards compare the running [time] with itself plus a
    positive span: they never fail. *)
Lemma guard_day (t : Time) : Qle_bool t (t + TimeDelta_jd 1) = true.
Proof. apply Qle_bool_iff. unfold TimeDelta_jd. lra. Qed.

Lemma guard_bigdt (t : Time) : Qle_bool t (t + bigdt) = true.
Proof. apply Qle_bool_iff. steps_lra. Qed.

Lemma guard_middt (t : Time) : Qle_bool t (t + middt) = true.
Proof. apply Qle_bool_iff. steps_lra. Qed.

(** A loop whose guard never fails and whose body samples one step and
    breaks on a crossing is the pure scan. *)
Lemma while_scan (dt : TimeDelta) (cond : Time -> bool)
      (body : Time -> M (flow * Time)) :
  (forall t, cond t = true) ->
  (forall t log,
      body t log
      = (Ret (if crossing source loc az el way dt t
              then (Break, t) else (Next, t + dt)),
         (t + dt) :: t :: log)) ->
  forall fuel t log,
    while fuel cond body t log
    = (scan_outcome source loc az el way dt fuel t,
       scan_log source loc az el way dt fuel t log).
Proof.
  intros Hc Hb fuel. unfold scan_outcome.
  induction fuel as [|fuel IH]; intros t log; cbn; [reflexivity|].
  rewrite Hc. unfold bind. rewrite Hb.
  destruct (crossing source loc az el way dt t); cbn; [reflexivity|].
  apply IH.
Qed.

Lemma coarse_step_run (t : Time) (log : Log) :
  one_target az el = true ->
  coarse_step source loc az el way t log
  = (Ret (if crossing source loc az el way bigdt t
          then (Break, t) else (Next, t + bigdt)),
     (t + bigdt) :: t :: log).
Proof.
  intros H1. unfold coarse_step, bind, crossing.
  rewrite bracket_test_run, H1.
  assert (Hv : bracket_value source loc az el way bigdt t <> None).
  { unfold bracket_value, one_target in *.
    destruct az, el; cbn in H1; try discriminate.
    - destruct (lower way =? "rise")%string; [discriminate|].
      destruct (lower way =? "set")%string; discriminate. }
  destruct (bracket_value source loc az el way bigdt t) as [[|]|];
    [reflexivity|reflexivity|contradiction].
Qed.

Lemma mid_step_run (t : Time) (log : Log) :
  one_target az el = true ->
  mid_step source loc az el way t log
  = (Ret (if crossing source loc az el way middt t
          then (Break, t) else (Next, t + middt)),
     (t + middt) :: t :: log).
Proof.
  intros H1. unfold mid_step, bind, crossing.
  rewrite bracket_test_run, H1.
  destruct (bracket_value source loc az el way middt t) as [[|]|]; reflexivity.
Qed.

Lemma fine_step_run (t : Time) (log : Log) :
  one_target az el = true ->
  fine_step source loc az el way t log
  = (Ret (if crossing source loc az el way smalldt t
          then (Break, t) else (Next, t + smalldt)),
     (t + smalldt) :: t :: log).
Proof.
  intros H1. unfold fine_step, bind, crossing.
  rewrite bracket_test_run, H1.
  destruct (bracket_value source loc az el way smalldt t) as [[|]|]; reflexivity.
Qed.

Lemma coarse_search_run (fuel : nat) (t : Time) (log : Log) :
  one_target az el = true ->
  coarse_search fuel source loc az el way t log
  = (scan_outcome source loc az el way bigdt fuel t,
     scan_log source loc az el way bigdt fuel t log).
Proof.
  intros H1. unfold coarse_search.
  apply while_scan; [apply guard_day|].
  intros; now apply coarse_step_run.
Qed.

Lemma mid_search_run (fuel : nat) (t : Time) (log : Log) :
  one_target az el = true ->
  mid_search fuel source loc az el way t log
  = (scan_outcome source loc az el way middt fuel t,
     scan_log source loc az el way middt fuel t log).
Proof.
  intros H1. unfold mid_search.
  apply while_scan; [apply guard_bigdt|].
  intros; now apply mid_step_run.
Qed.

Lemma fine_search_run (fuel : nat) (t : Time) (log : Log) :
  one_target az el = true ->
  fine_search fuel source loc az el way t log
  = (scan_outcome source loc az el way smalldt fuel t,
     scan_log source loc az el way smalldt fuel t log).
Proof.
  intros H1. unfold fine_search.
  apply while_scan; [apply guard_middt|].
  intros; now apply fine_step_run.
Qed.

(** Without exactly one target the first loop raises at its first
    position, before any call to the transform. *)
Lemma coarse_search_invalid (fuel : nat) (t : Time) (log : Log) :
  one_target az el = false ->
  coarse_search (S fuel) source loc az el way t log
  = (Raise (ValueError "either az or el parameters should not be None"), log).
Proof.
  intros H1. unfold coarse_search; cbn.
  rewrite guard_day. unfold bind, coarse_step, bind.
  rewrite bracket_test_run, H1.
  unfold bracket_value, one_target in *.
  destruct az, el; cbn in H1; try discriminate; reflexivity.
Qed.

End SearchLemmas.

(** ** Properties of the pure search *)

Lemma between_iff (a x b : Q) : between a x b = true <-> a <= x /\ x <= b.
Proof.
  unfold between. rewrite andb_true_iff, !Qle_bool_iff. tauto.
Qed.

(** A sequence that starts below [a] and ends above it steps over [a]. *)
Lemma steps_over_up (g : nat -> Q) (a : Q) (n : nat) :
  (0 < n)%nat -> g 0%nat <= a -> a <= g n ->
  exists k, (k < n)%nat /\ g k <= a /\ a <= g (S k).
Proof.
  induction n as [|n IH]; intros Hn H0 Hend; [lia|].
  destruct n as [|n].
  - exists 0%nat. repeat split; [lia|assumption|assumption].
  - destruct (Qlt_le_dec (g (S n)) a) as [Hlt|Hge].
    + exists (S n). repeat split; [lia| |assumption].
      now apply Qlt_le_weak.
    + destruct IH as (k & Hk & Hlo & Hhi); [lia|assumption|assumption|].
      exists k. repeat split; [lia|assumption|assumption].
Qed.

Lemma steps_over_down (g : nat -> Q) (a : Q) (n : nat) :
  (0 < n)%nat -> g n <= a -> a <= g 0%nat ->
  exists k, (k < n)%nat /\ g (S k) <= a /\ a <= g k.
Proof.
  intros Hn Hend H0.
  destruct (steps_over_up (fun j => - g j) (- a) n) as (k & Hk & Hlo & Hhi);
    [assumption|lra|lra|].
  exists k. repeat split; [assumption|lra|lra].
Qed.

Section ScanLemmas.

Context {E : Externals}.
Variables (source : SkyCoord) (loc : EarthLocation).
Variables (az el : option Q) (way : string).

Local Abbreviation crossing' := (crossing source loc az el way).
Local Abbreviation scan' := (scan source loc az el way).
Local Abbreviation scan_log' := (scan_log source loc az el way).

Lemma advance_succ (dt : TimeDelta) (k : nat) (t : Time) :
  advance dt (S k) t = advance dt k t + dt.
Proof.
  revert t. induction k as [|k IH]; intros t; [reflexivity|].
  change (advance dt (S (S k)) t) with (advance dt (S k) (t + dt)).
  rewrite IH. reflexivity.
Qed.

Lemma advance_days (dt : TimeDelta) (k : nat) (t : Time) :
  advance dt k t == t + inject_Z (Z.of_nat k) * dt.
Proof.
  induction k as [|k IH].
  - cbn. unfold inject_Z. lra.
  - rewrite advance_succ, IH, Nat2Z.inj_succ.
    unfold Z.succ. rewrite inject_Z_plus. ring.
Qed.

(** What [scan] returns is the first crossing bracket on the grid. *)
Lemma scan_first (dt : TimeDelta) (fuel : nat) (t t' : Time) :
  scan' dt fuel t = Some t' ->
  exists k, (k < fuel)%nat /\ t' = advance dt k t /\
            crossing' dt t' = true /\
            forall j, (j < k)%nat -> crossing' dt (advance dt j t) = false.
Proof.
  revert t. induction fuel as [|fuel IH]; intros t H; [discriminate|].
  cbn in H. destruct (crossing' dt t) eqn:Hc.
  - injection H as <-. exists 0%nat.
    repeat split; [lia|assumption|]. intros j Hj; lia.
  - destruct (IH _ H) as (k & Hk & Ht' & Hc' & Hfirst).
    exists (S k). repeat split; [lia|assumption|assumption|].
    intros [|j] Hj; [assumption|]. apply Hfirst. lia.
Qed.


(** More fuel does not change a result. *)
Lemma scan_more_fuel (dt : TimeDelta) (fuel fuel' : nat) (t t' : Time) :
  (fuel <= fuel')%nat -> scan' dt fuel t = Some t' -> scan' dt fuel' t = Some t'.
Proof.
  revert fuel' t. induction fuel as [|fuel IH]; intros fuel' t Hle H;
    [discriminate|].
  destruct fuel' as [|fuel']; [lia|].
  cbn in *. destruct (crossing' dt t); [assumption|].
  apply IH; [lia|assumption].
Qed.

(** Without a crossing bracket on the grid the scan uses all its fuel,
    two samples a step. *)
Lemma scan_never (dt : TimeDelta) (t : Time) :
  (forall k, crossing' dt (advance dt k t) = false) ->
  forall fuel log,
    scan' dt fuel t = None /\
    length (scan_log' dt fuel t log) = (2 * fuel + length log)%nat.
Proof.
  intros H fuel. revert t H.
  induction fuel as [|fuel IH]; intros t H log; [split; reflexivity|].
  cbn [scan scan_log].
  rewrite (H 0%nat : crossing' dt t = false).
  destruct (IH (t + dt) (fun k => H (S k)) ((t + dt) :: t :: log)) as [Hs Hl].
  split; [assumption|]. rewrite Hl. cbn [length]. lia.
Qed.


End ScanLemmas.

(** ** [getTransit] in terms of its passes *)

Section TransitLemmas.

Context {E : Externals}.

Lemma getTransit_eq (fuel : nat) (source : PySource) (time : PyTime)
      (loc : PyLoc) (az el : option Q) (unit way : string) (log : Log) :
  getTransit fuel source time loc az el unit way log
  = match getTime time None with
    | Ret t0 =>
        match getLoc loc "deg" with
        | Ret l =>
            match getSrc source (TimeObj t0) (LocEarth l) unit with
            | Ret s =>
                if way_ok way then passes fuel s l az el way t0 log
                else (Raise (AssertionError "way must be either rise or set"), log)
            | Raise e => (Raise e, log)
            | OutOfFuel => (OutOfFuel, log)
            end
        | Raise e => (Raise e, log)
        | OutOfFuel => (OutOfFuel, log)
        end
    | Raise e => (Raise e, log)
    | OutOfFuel => (OutOfFuel, log)
    end.
Proof.
  unfold getTransit, passes, bind at 1, lift at 1.
  destruct (getTime time None) as [t0| |]; try reflexivity.
  unfold bind at 1, lift at 1.
  destruct (getLoc loc "deg") as [l| |]; try reflexivity.
  unfold bind at 1, lift at 1.
  destruct (getSrc source (TimeObj t0) (LocEarth l) unit) as [s| |];
    try reflexivity.
  unfold bind at 1, lift at 1, py_assert.
  destruct (way_ok way); reflexivity.
Qed.

Lemma passes_search (fuel : nat) (s : SkyCoord) (l : EarthLocation)
      (az el : option Q) (way : string) (t0 : Time) (log : Log) :
  one_target az el = true ->
  passes fuel s l az el way t0 log
  = (search3 s l az el way fuel t0, search3_log s l az el way fuel t0 log).
Proof.
  intros H1. unfold passes, search3, search3_log, bind.
  rewrite coarse_search_run by assumption. unfold scan_outcome.
  destruct (scan s l az el way bigdt fuel t0) as [t|]; [|reflexivity].
  cbn [obind].
  rewrite mid_search_run by assumption. unfold scan_outcome.
  destruct (scan s l az el way middt fuel t) as [t'|]; [|reflexivity].
  cbn [obind].
  rewrite fine_search_run by assumption. unfold scan_outcome.
  destruct (scan s l az el way smalldt fuel t') as [t''|]; reflexivity.
Qed.

Lemma passes_invalid (fuel : nat) (s : SkyCoord) (l : EarthLocation)
      (az el : option Q) (way : string) (t0 : Time) (log : Log) :
  one_target az el = false ->
  passes (S fuel) s l az el way t0 log
  = (Raise (ValueError "either az or el parameters should not be None"), log).
Proof.
  intros H1. unfold passes, bind at 1.
  rewrite coarse_search_invalid by assumption. reflexivity.
Qed.

(** A query that returns has been resolved and validated, and its result
    is the one of the pure search. *)
Lemma getTransit_returns (fuel : nat) (source : PySource) (time : PyTime)
      (loc : PyLoc) (az el : option Q) (unit way : string)
      (log log' : Log) (r : Time) :
  getTransit fuel source time loc az el unit way log = (Ret r, log') ->
  exists t0 l s,
    getTime time None = Ret t0 /\ getLoc loc "deg" = Ret l /\
    getSrc source (TimeObj t0) (LocEarth l) unit = Ret s /\
    way_ok way = true /\ one_target az el = true /\
    search3 s l az el way fuel t0 = Ret r.
Proof.
  rewrite getTransit_eq. intros H.
  destruct (getTime time None) as [t0| |] eqn:Ht; try discriminate.
  destruct (getLoc loc "deg") as [l| |] eqn:Hl; try discriminate.
  destruct (getSrc source (TimeObj t0) (LocEarth l) unit) as [s| |] eqn:Hs;
    try discriminate.
  destruct (way_ok way) eqn:Hw; try discriminate.
  destruct (one_target az el) eqn:H1.
  - rewrite passes_search in H by assumption.
    exists t0, l, s. injection H as Hr _.
    repeat split; (reflexivity || assumption).
  - destruct fuel as [|fuel].
    + discriminate.
    + rewrite passes_invalid in H by assumption. discriminate.
Qed.

End TransitLemmas.

(** ** Refinement stays inside the parent bracket *)

Section Refinement.

Context {E : Externals}.
Variables (source : SkyCoord) (loc : EarthLocation).
Variables (az el : option Q) (way : string).

Local Abbreviation crossing' := (crossing source loc az el way).
Local Abbreviation scan' := (scan source loc az el way).

(** A bracket of width [big] contains, on the grid of [n] steps of
    [small] that meets its end, a bracket of width [small]. *)
Lemma refine_inside_aligned (big small : TimeDelta) (n : nat) (t : Time) :
  (0 < n)%nat -> grid_aligned source loc big small n ->
  crossing' big t = true ->
  exists k, (k < n)%nat /\ crossing' small (advance small k t) = true.
Proof.
  intros Hn Halign Hc.
  assert (Haz : az_at source loc (advance small n t) == az_at source loc (t + big))
    by apply (Halign t).
  assert (Halt : alt_at source loc (advance small n t) == alt_at source loc (t + big))
    by apply (Halign t).
  unfold crossing, bracket_value in *.
  destruct az as [a|], el as [e|]; try discriminate.
  - (* azimuth *)
    destruct (between _ a _) eqn:Hb in Hc; [|discriminate].
    apply between_iff in Hb. destruct Hb as [Hlo Hhi].
    rewrite <- Haz in Hhi.
    destruct (steps_over_up (fun j => az_at source loc (advance small j t)) a n)
      as (k & Hk & H1 & H2); [assumption|exact Hlo|exact Hhi|].
    exists k. split; [assumption|].
    rewrite advance_succ in H2.
    assert (Hb : between (az_at source loc (advance small k t)) a
                         (az_at source loc (advance small k t + small)) = true)
      by (apply between_iff; split; assumption).
    rewrite Hb. reflexivity.
  - (* elevation *)
    destruct (lower way =? "rise")%string.
    + destruct (between _ e _) eqn:Hb in Hc; [|discriminate].
      apply between_iff in Hb. destruct Hb as [Hlo Hhi].
      rewrite <- Halt in Hhi.
      destruct (steps_over_up (fun j => alt_at source loc (advance small j t)) e n)
        as (k & Hk & H1 & H2); [assumption|exact Hlo|exact Hhi|].
      exists k. split; [assumption|].
      rewrite advance_succ in H2.
      assert (Hb : between (alt_at source loc (advance small k t)) e
                           (alt_at source loc (advance small k t + small)) = true)
        by (apply between_iff; split; assumption).
      rewrite Hb. reflexivity.
    + destruct (lower way =? "set")%string; [|discriminate].
      destruct (between _ e _) eqn:Hb in Hc; [|discriminate].
      apply between_iff in Hb. destruct Hb as [Hlo Hhi].
      rewrite <- Halt in Hlo.
      destruct (steps_over_down (fun j => alt_at source loc (advance small j t)) e n)
        as (k & Hk & H1 & H2); [assumption|exact Hlo|exact Hhi|].
      exists k. split; [assumption|].
      rewrite advance_succ in H1.
      assert (Hb : between (alt_at source loc (advance small k t + small)) e
                           (alt_at source loc (advance small k t)) = true)
        by (apply between_iff; split; assumption).
      rewrite Hb. reflexivity.
Qed.


(** A transform that is a function of the instant has every grid that
    divides a step aligned with it. *)
Lemma pure_aligned (big small : TimeDelta) (n : nat) :
  transform_respects_time ->
  inject_Z (Z.of_nat n) * small == big ->
  grid_aligned source loc big small n.
Proof.
  intros Hpure Hdiv t. apply Hpure.
  rewrite advance_days, Hdiv. reflexivity.
Qed.

Lemma refine_inside (big small : TimeDelta) (n : nat) (t : Time) :
  transform_respects_time ->
  (0 < n)%nat -> inject_Z (Z.of_nat n) * small == big ->
  crossing' big t = true ->
  exists k, (k < n)%nat /\ crossing' small (advance small k t) = true.
Proof.
  intros Hpure Hn Hdiv Hc.
  apply (refine_inside_aligned big small n t Hn); [|assumption].
  now apply pure_aligned.
Qed.

End Refinement.

(** ** The crossing predicate *)

Lemma one_target_of_spec (target : TargetSpec) :
  one_target (target_az target) (target_el target) = true.
Proof. destruct target; reflexivity. Qed.

Lemma crossing_spec {E : Externals} (s : SkyCoord) (l : EarthLocation)
      (target : TargetSpec) (d : Direction) (way : string)
      (dt : TimeDelta) (t : Time) :
  direction_of way = Some d ->
  crossing s l (target_az target) (target_el target) way dt t = true <->
  CrossingPredicate target d
    (channel target (transform_to s t l))
    (channel target (transform_to s (t + dt) l)).
Proof.
  unfold direction_of, crossing, bracket_value, az_at, alt_at. intros Hd.
  destruct target as [a|e]; cbn [target_az target_el channel CrossingPredicate].
  - rewrite <- between_iff.
    destruct (between _ a _); split; intros; (reflexivity || assumption).
  - destruct (lower way =? "rise")%string.
    + injection Hd as <-. rewrite <- between_iff.
      destruct (between _ e _); split; intros; (reflexivity || assumption).
    + destruct (lower way =? "set")%string; [|discriminate].
      injection Hd as <-. rewrite <- between_iff.
      destruct (between _ e _); split; intros; (reflexivity || assumption).
Qed.

(** C4.  At every step of the coarse, the mid and the fine pass of
    [getTransit], the pair sampled at [t] and [t + step] is accepted as a
    crossing bracket exactly when the specification's predicate holds:
    [c1 <= A <= c2] for an azimuth target, whatever the direction,
    [c1 <= E <= c2] for an elevation target on the way up and
    [c2 <= E <= c1] on the way down. *)
Theorem crossing_predicate_every_pass {E : Externals}
        (s : SkyCoord) (l : EarthLocation) (target : TargetSpec)
        (d : Direction) (way : string) :
  direction_of way = Some d ->
  step_accepts coarse_step bigdt target d way s l /\
  step_accepts mid_step middt target d way s l /\
  step_accepts fine_step smalldt target d way s l.
Proof.
  intros Hd. pose proof (one_target_of_spec target) as H1.
  repeat split; intros t log.
  - exists (crossing s l (target_az target) (target_el target) way bigdt t).
    split; [now apply coarse_step_run | now apply crossing_spec].
  - exists (crossing s l (target_az target) (target_el target) way middt t).
    split; [now apply mid_step_run | now apply crossing_spec].
  - exists (crossing s l (target_az target) (target_el target) way smalldt t).
    split; [now apply fine_step_run | now apply crossing_spec].
Qed.

Lemma crossing_predicate_every_pass_witness :
  step_accepts (E := triangle_day) (coarse_step (E := triangle_day)) bigdt (Elevation 0) Setting "Set"
               origin nenufar /\
  step_accepts (E := triangle_day) (mid_step (E := triangle_day)) middt (Elevation 0) Setting "Set"
               origin nenufar /\
  step_accepts (E := triangle_day) (fine_step (E := triangle_day)) smalldt (Elevation 0) Setting "Set"
               origin nenufar.
Proof.
  apply (crossing_predicate_every_pass (E := triangle_day)). reflexivity.
Defined.

(** ** The wrappers *)

(** C6.  [riseTime] is [getTransit] at the target Elevation(0) with the
    direction Rise, [setTime] at Elevation(0) with the direction Set and
    [meridianTime] at Azimuth(180) with the direction Rise (the default
    of [way]); the wrappers do nothing else. *)
Theorem wrappers_fix_parameters {E : Externals} (fuel : nat)
        (source : PySource) (time : PyTime) (loc : PyLoc) (unit : string) :
  riseTime fuel source time loc unit
  = getTransit fuel source time loc
      (target_az (Elevation 0)) (target_el (Elevation 0)) unit "rise" /\
  setTime fuel source time loc unit
  = getTransit fuel source time loc
      (target_az (Elevation 0)) (target_el (Elevation 0)) unit "set" /\
  meridianTime fuel source time loc unit
  = getTransit fuel source time loc
      (target_az (Azimuth 180)) (target_el (Azimuth 180)) unit "rise" /\
  direction_of "rise" = Some Rise /\ direction_of "set" = Some Setting.
Proof. repeat split. Qed.

(** ** The resolvers *)

(** C8.  [getTime] maps the keyword 'tomorrow' to the clock plus one day
    and 'yesterday' to the clock minus one day, whatever the case of the
    letters; a number is read as a Julian Date when no unit or the unit
    'jd' is given, and as a Modified Julian Date, 2400000.5 days later,
    for the unit 'mjd'. *)
Theorem getTime_keywords_and_numbers {E : Externals}
        (tomorrow yesterday jd mjd : string) (unit : option string) (x : Q) :
  lower tomorrow = "tomorrow" -> lower yesterday = "yesterday" ->
  lower jd = "jd" -> lower mjd = "mjd" ->
  getTime (TimeStr tomorrow) unit = Ret (Time_now + 1) /\
  getTime (TimeStr yesterday) unit = Ret (Time_now - 1) /\
  getTime (TimeNum x) None = Ret x /\
  getTime (TimeNum x) (Some jd) = Ret x /\
  getTime (TimeNum x) (Some mjd) = Ret (x + (24000005 # 10)).
Proof.
  intros H1 H2 H3 H4. unfold getTime, Time_of_number.
  rewrite H1, H2, H3, H4. repeat split.
Qed.

Lemma getTime_keywords_and_numbers_witness :
  getTime (E := circumpolar) (TimeStr "Tomorrow") None = Ret (2460000 + 1) /\
  getTime (E := circumpolar) (TimeStr "YESTERDAY") None = Ret (2460000 - 1) /\
  getTime (E := circumpolar) (TimeNum (5 # 2)) None = Ret (5 # 2) /\
  getTime (E := circumpolar) (TimeNum (5 # 2)) (Some "JD") = Ret (5 # 2) /\
  getTime (E := circumpolar) (TimeNum (5 # 2)) (Some "Mjd")
  = Ret ((5 # 2) + (24000005 # 10)).
Proof.
  apply (getTime_keywords_and_numbers (E := circumpolar)
           "Tomorrow" "YESTERDAY" "JD" "Mjd" None (5 # 2));
    reflexivity.
Defined.

(** C9.  A coordinate tuple of length 2 passed to [getSrc] with the unit
    'deg' (the default) fails on the read of the local [ra], which only
    the other branch assigns: an unbound-variable failure, not a
    [SkyCoord] and not an error of the resolvers. *)
Theorem getSrc_tuple_deg_unbound {E : Externals}
        (xs : list Q) (time : PyTime) (loc : PyLoc) (unit : string) :
  length xs = 2%nat -> lower unit = "deg" ->
  getSrc (SrcTuple xs) time loc unit = Raise (UnboundLocalError "ra").
Proof.
  intros Hlen Hunit. unfold getSrc. rewrite Hlen, Hunit. reflexivity.
Qed.

Lemma getSrc_tuple_deg_unbound_witness :
  getSrc (E := circumpolar) (SrcTuple [299868 # 1000; 40734 # 1000])
         TimeOther LocOther "deg"
  = Raise (UnboundLocalError "ra").
Proof.
  apply (getSrc_tuple_deg_unbound (E := circumpolar)); reflexivity.
Defined.

(** ** Azimuth queries and the direction *)

(** C10.  For an azimuth target the result of [getTransit] does not
    depend on [way]: any two accepted values, 'rise' and 'set' among
    them, give the same outcome and the same evaluator calls. *)
Theorem azimuth_ignores_way {E : Externals} (fuel : nat)
        (source : PySource) (time : PyTime) (loc : PyLoc) (a : Q)
        (unit way1 way2 : string) (log : Log) :
  way_ok way1 = true -> way_ok way2 = true ->
  getTransit fuel source time loc (Some a) None unit way1 log
  = getTransit fuel source time loc (Some a) None unit way2 log.
Proof.
  intros H1 H2. rewrite !getTransit_eq, H1, H2. reflexivity.
Qed.

Lemma azimuth_ignores_way_witness :
  getTransit (E := triangle_day) 100 (SrcSky origin) (TimeObj (1 # 2))
             (LocEarth nenufar) (Some 180) None "deg" "rise" []
  = getTransit (E := triangle_day) 100 (SrcSky origin) (TimeObj (1 # 2))
               (LocEarth nenufar) (Some 180) None "deg" "set" [].
Proof.
  apply (azimuth_ignores_way (E := triangle_day)); reflexivity.
Defined.

(** ** The coarse pass has no bound *)

(** When no step of the coarse grid is a crossing bracket, [getTransit]
    is still in its first loop after any number of steps, having called
    the evaluator twice a step. *)
Lemma no_crossing_no_exit {E : Externals} (fuel : nat)
      (s : SkyCoord) (l : EarthLocation) (az el : option Q) (way : string)
      (t0 : Time) (log : Log) :
  one_target az el = true ->
  (forall k, crossing s l az el way bigdt (advance bigdt k t0) = false) ->
  exists log',
    passes fuel s l az el way t0 log = (OutOfFuel, log') /\
    length log' = (2 * fuel + length log)%nat.
Proof.
  intros H1 Hnone.
  destruct (scan_never s l az el way bigdt t0 Hnone fuel log) as [Hs Hl].
  exists (scan_log s l az el way bigdt fuel t0 log).
  rewrite passes_search by assumption.
  unfold search3, search3_log, scan_outcome. rewrite Hs.
  split; [reflexivity|assumption].
Qed.

(** C1.  The coarse pass is not bounded by 48 steps.  For a source that
    stays at elevation 45 degrees and the query Elevation(0), Rise,
    [getTransit] has not left its first loop after [fuel] steps, for
    every [fuel], and has by then called the evaluator [2 * fuel] times:
    it neither stops after 48 steps nor fails with an error. *)
Theorem coarse_pass_unbounded (fuel : nat) :
  exists log,
    getTransit (E := circumpolar) fuel (SrcSky origin) (TimeObj 2460000)
               (LocEarth nenufar) None (Some 0) "deg" "rise" []
    = (OutOfFuel, log) /\
    length log = (2 * fuel)%nat.
Proof.
  rewrite getTransit_eq. cbn [getTime getLoc getSrc].
  change (way_ok "rise") with true. cbv iota.
  destruct (no_crossing_no_exit (E := circumpolar) fuel origin nenufar
              None (Some 0) "rise" 2460000 []) as (log & Hrun & Hlen).
  - reflexivity.
  - intros k. reflexivity.
  - exists log. split; [exact Hrun|]. rewrite Hlen. cbn [length]. lia.
Qed.

(** ** The returned instant *)

Lemma search3_returns {E : Externals} (fuel : nat)
      (s : SkyCoord) (l : EarthLocation) (az el : option Q) (way : string)
      (t0 r : Time) :
  search3 s l az el way fuel t0 = Ret r ->
  exists t t' t'',
    scan s l az el way bigdt fuel t0 = Some t /\
    scan s l az el way middt fuel t = Some t' /\
    scan s l az el way smalldt fuel t' = Some t'' /\
    r = t'' + smalldt / 2.
Proof.
  unfold search3, scan_outcome. intros H.
  destruct (scan s l az el way bigdt fuel t0) as [t|] eqn:Hc; [|discriminate].
  cbn [obind] in H.
  destruct (scan s l az el way middt fuel t) as [t'|] eqn:Hm; [|discriminate].
  cbn [obind] in H.
  destruct (scan s l az el way smalldt fuel t') as [t''|] eqn:Hf; [|discriminate].
  cbn [obind] in H. injection H as <-.
  exists t, t', t''. repeat split; assumption.
Qed.

Lemma half_step_seconds : TimeDelta_sec (5 # 2) == 1 # 34560.
Proof. reflexivity. Qed.

Lemma half_smalldt : smalldt / 2 == 1 # 34560.
Proof. reflexivity. Qed.

(** C5.  A query that succeeds returns [t'' + 2.5 s], where [t''] is the
    instant at which the fine loop stopped on a crossing bracket
    [t'', t'' + 5 s]; every instant of that bracket, the true crossing
    among them when the bracket contains it, is within 2.5 seconds of
    the result. *)
Theorem result_is_fine_bracket_midpoint {E : Externals} (fuel : nat)
        (source : PySource) (time : PyTime) (loc : PyLoc)
        (az el : option Q) (unit way : string) (log log' : Log) (r : Time) :
  getTransit fuel source time loc az el unit way log = (Ret r, log') ->
  exists (l : EarthLocation) (s : SkyCoord) (t' t'' : Time) (log1 : Log),
    fine_search fuel s l az el way t' log1 = (Ret t'', log') /\
    crossing s l az el way smalldt t'' = true /\
    r = t'' + smalldt / 2 /\
    r == t'' + TimeDelta_sec (5 # 2) /\
    forall x : Time,
      t'' <= x -> x <= t'' + smalldt -> Qabs (r - x) <= TimeDelta_sec (5 # 2).
Proof.
  intros Hrun.
  destruct (getTransit_returns _ _ _ _ _ _ _ _ _ _ _ Hrun)
    as (t0 & l & s & Ht & Hl & Hs & Hw & H1 & Hsearch).
  rewrite getTransit_eq, Ht, Hl, Hs, Hw, passes_search in Hrun by assumption.
  destruct (search3_returns _ _ _ _ _ _ _ _ Hsearch)
    as (t & t' & t'' & Hc & Hm & Hf & Hr).
  injection Hrun as _ Hlog. unfold search3_log in Hlog.
  rewrite Hc, Hm in Hlog.
  destruct (scan_first _ _ _ _ _ _ _ _ _ Hf) as (k & _ & _ & Hcross & _).
  exists l, s, t', t'', (scan_log s l az el way middt fuel t
                           (scan_log s l az el way bigdt fuel t0 log)).
  repeat split.
  - rewrite fine_search_run by assumption.
    unfold scan_outcome. rewrite Hf, Hlog. reflexivity.
  - exact Hcross.
  - exact Hr.
  - rewrite Hr. pose proof half_step_seconds. pose proof half_smalldt.
    set (h := smalldt / 2) in *. lra.
  - intros x Hlo Hhi. apply Qabs_Qle_condition.
    rewrite Hr. pose proof half_step_seconds. pose proof half_smalldt.
    set (h := smalldt / 2) in *. split; steps_lra.
Qed.

Lemma result_is_fine_bracket_midpoint_witness :
  exists (r : Time) (log' : Log),
    getTransit (E := triangle_day) 10 (SrcSky origin)
               (TimeObj ((1 # 4) - (7 # 1000))) (LocEarth nenufar)
               None (Some 0) "deg" "rise" []
    = (Ret r, log') /\
    exists (l : EarthLocation) (s : SkyCoord) (t' t'' : Time) (log1 : Log),
      fine_search (E := triangle_day) 10 s l None (Some 0) "rise" t' log1
      = (Ret t'', log') /\
      crossing (E := triangle_day) s l None (Some 0) "rise" smalldt t'' = true /\
      r = t'' + smalldt / 2 /\
      r == t'' + TimeDelta_sec (5 # 2) /\
      forall x : Time,
        t'' <= x -> x <= t'' + smalldt -> Qabs (r - x) <= TimeDelta_sec (5 # 2).
Proof.
  eexists. eexists. split.
  - vm_compute. reflexivity.
  - apply (result_is_fine_bracket_midpoint (E := triangle_day) 10
             (SrcSky origin) (TimeObj ((1 # 4) - (7 # 1000))) (LocEarth nenufar)
             None (Some 0) "deg" "rise" []).
    vm_compute. reflexivity.
Defined.

(** ** Determinism *)

Lemma search3_more_fuel {E : Externals} (fuel fuel' : nat)
      (s : SkyCoord) (l : EarthLocation) (az el : option Q) (way : string)
      (t0 r : Time) :
  (fuel <= fuel')%nat ->
  search3 s l az el way fuel t0 = Ret r ->
  search3 s l az el way fuel' t0 = Ret r.
Proof.
  intros Hle H.
  destruct (search3_returns _ _ _ _ _ _ _ _ H) as (t & t' & t'' & Hc & Hm & Hf & ->).
  unfold search3, scan_outcome.
  rewrite (scan_more_fuel _ _ _ _ _ _ _ _ _ _ Hle Hc). cbn [obind].
  rewrite (scan_more_fuel _ _ _ _ _ _ _ _ _ _ Hle Hm). cbn [obind].
  rewrite (scan_more_fuel _ _ _ _ _ _ _ _ _ _ Hle Hf). reflexivity.
Qed.

(** C7.  Two calls of [getTransit] on the same evaluator and the same
    arguments return the same instant: the result depends neither on
    what earlier calls left behind (the log of evaluator calls is only
    written) nor on how long the loops are allowed to run. *)
Theorem getTransit_deterministic {E : Externals} (fuel1 fuel2 : nat)
        (source : PySource) (time : PyTime) (loc : PyLoc)
        (az el : option Q) (unit way : string)
        (log1 log2 log1' log2' : Log) (r1 r2 : Time) :
  getTransit fuel1 source time loc az el unit way log1 = (Ret r1, log1') ->
  getTransit fuel2 source time loc az el unit way log2 = (Ret r2, log2') ->
  r1 = r2.
Proof.
  intros Hrun1 Hrun2.
  destruct (getTransit_returns _ _ _ _ _ _ _ _ _ _ _ Hrun1)
    as (t0 & l & s & Ht & Hl & Hs & _ & _ & Hsearch1).
  destruct (getTransit_returns _ _ _ _ _ _ _ _ _ _ _ Hrun2)
    as (t0' & l' & s' & Ht' & Hl' & Hs' & _ & _ & Hsearch2).
  rewrite Ht in Ht'. injection Ht' as <-.
  rewrite Hl in Hl'. injection Hl' as <-.
  rewrite Hs in Hs'. injection Hs' as <-.
  destruct (Nat.le_ge_cases fuel1 fuel2) as [Hle|Hle].
  - rewrite (search3_more_fuel _ _ _ _ _ _ _ _ _ Hle Hsearch1) in Hsearch2.
    congruence.
  - rewrite (search3_more_fuel _ _ _ _ _ _ _ _ _ Hle Hsearch2) in Hsearch1.
    congruence.
Qed.

Lemma getTransit_deterministic_witness :
  exists (r1 r2 : Time) (log1' log2' : Log),
    getTransit (E := triangle_day) 10 (SrcSky origin)
               (TimeObj ((1 # 4) - (7 # 1000))) (LocEarth nenufar)
               None (Some 0) "deg" "rise" []
    = (Ret r1, log1') /\
    getTransit (E := triangle_day) 20 (SrcSky origin)
               (TimeObj ((1 # 4) - (7 # 1000))) (LocEarth nenufar)
               None (Some 0) "deg" "rise" [1 # 3; 2 # 3]
    = (Ret r2, log2') /\
    r1 = r2.
Proof.
  do 4 eexists. split; [vm_compute; reflexivity|].
  split; [vm_compute; reflexivity|].
  eapply (getTransit_deterministic (E := triangle_day) 10 20
            (SrcSky origin) (TimeObj ((1 # 4) - (7 # 1000))) (LocEarth nenufar)
            None (Some 0) "deg" "rise" [] [1 # 3; 2 # 3]);
    vm_compute; reflexivity.
Defined.

Lemma crossing_bracket_value {E : Externals} (s : SkyCoord) (l : EarthLocation)
      (az el : option Q) (way : string) (dt : TimeDelta) (t : Time) :
  crossing s l az el way dt t = true ->
  bracket_value s l az el way dt t = Some true.
Proof.
  unfold crossing.
  destruct (bracket_value s l az el way dt t) as [[|]|];
    (reflexivity || discriminate).
Qed.

(** ** Refinement *)

Lemma middt_nonneg : 0 <= middt.
Proof. steps_lra. Qed.

Lemma smalldt_nonneg : 0 <= smalldt.
Proof. steps_lra. Qed.

Lemma six_middt : inject_Z (Z.of_nat 6) * middt == bigdt.
Proof. reflexivity. Qed.

Lemma sixty_smalldt : inject_Z (Z.of_nat 60) * smalldt == middt.
Proof. reflexivity. Qed.


Lemma triangle_day_pure : transform_respects_time (E := triangle_day).
Proof.
  intros s l t t' H. cbn.
  assert (Hb : Qle_bool t (1 # 2) = Qle_bool t' (1 # 2))
    by (apply Qleb_comp; [assumption|reflexivity]).
  rewrite Hb. split.
  - rewrite H. reflexivity.
  - destruct (Qle_bool t' (1 # 2)); rewrite H; reflexivity.
Qed.



(** ** Validation of the query *)

Lemma search3_no_raise {E : Externals} (fuel : nat)
      (s : SkyCoord) (l : EarthLocation) (az el : option Q) (way : string)
      (t0 : Time) (e : exn) :
  search3 s l az el way fuel t0 <> Raise e.
Proof.
  unfold search3, scan_outcome.
  destruct (scan s l az el way bigdt fuel t0) as [t|]; [|discriminate].
  cbn [obind].
  destruct (scan s l az el way middt fuel t) as [t'|]; [|discriminate].
  cbn [obind].
  destruct (scan s l az el way smalldt fuel t') as [t''|]; discriminate.
Qed.

(** C3, as the code has it.  Once the time, the location and the source
    are resolved, [getTransit] rejects a query exactly when [way],
    lower-cased, is neither 'rise' nor 'set' (an assertion failure, for
    azimuth and elevation targets alike) or when both or neither of [az]
    and [el] are given (a [ValueError]); both rejections come before any
    evaluator call.  Every other query raises no error at all, an
    azimuth target with [way = 'set'] included. *)
Theorem getTransit_validation {E : Externals} (fuel : nat)
        (source : PySource) (time : PyTime) (loc : PyLoc)
        (az el : option Q) (unit way : string) (log : Log)
        (t0 : Time) (l : EarthLocation) (s : SkyCoord) :
  getTime time None = Ret t0 ->
  getLoc loc "deg" = Ret l ->
  getSrc source (TimeObj t0) (LocEarth l) unit = Ret s ->
  let r := getTransit (S fuel) source time loc az el unit way log in
  rejected (fst r) = negb (way_ok way) || negb (one_target az el) /\
  (way_ok way = false ->
   r = (Raise (AssertionError "way must be either rise or set"), log)) /\
  (way_ok way = true -> one_target az el = false ->
   r = (Raise (ValueError "either az or el parameters should not be None"), log)) /\
  (way_ok way = true -> one_target az el = true ->
   forall e : exn, fst r <> Raise e).
Proof.
  intros Ht Hl Hs r. subst r.
  rewrite getTransit_eq, Ht, Hl, Hs.
  destruct (way_ok way) eqn:Hw; cbn [negb orb].
  - destruct (one_target az el) eqn:H1; cbn [negb].
    + rewrite passes_search by assumption. cbn [fst].
      repeat split; try discriminate.
      * pose proof (search3_no_raise (S fuel) s l az el way t0) as Hno.
        destruct (search3 s l az el way (S fuel) t0) as [a|e|];
          [reflexivity| |reflexivity].
        exfalso. apply (Hno e). reflexivity.
      * intros _ _ e. apply search3_no_raise.
    + rewrite passes_invalid by assumption.
      repeat split; discriminate.
  - repeat split; discriminate.
Qed.

Lemma getTransit_validation_witness :
  let r := getTransit (E := triangle_day) 9 (SrcSky origin) (TimeObj (1 # 2))
                      (LocEarth nenufar) (Some 180) (Some 0) "deg" "Set" [] in
  rejected (fst r) = negb (way_ok "Set") || negb (one_target (Some 180) (Some 0)) /\
  (way_ok "Set" = false ->
   r = (Raise (AssertionError "way must be either rise or set"), [])) /\
  (way_ok "Set" = true -> one_target (Some 180) (Some 0) = false ->
   r = (Raise (ValueError "either az or el parameters should not be None"), [])) /\
  (way_ok "Set" = true -> one_target (Some 180) (Some 0) = true ->
   forall e : exn, fst r <> Raise e).
Proof.
  apply (getTransit_validation (E := triangle_day) 8
           (SrcSky origin) (TimeObj (1 # 2)) (LocEarth nenufar)
           (Some 180) (Some 0) "deg" "Set" [] (1 # 2) nenufar origin);
    reflexivity.
Defined.

(** C3, as the specification has it, fails twice.  An azimuth target
    with the direction Set, which the specification counts as an invalid
    query, is accepted and answered; and an elevation target, none of the
    specification's three cases, is rejected when [way] is not a
    direction. *)
Lemma InvalidQuery_claim_fails :
  (InvalidQuery_spec (Some 180) None "set" = true /\
   getTransit (E := triangle_day) 1 (SrcSky origin) (TimeObj (1 # 2))
              (LocEarth nenufar) (Some 180) None "deg" "set" []
   = (Ret ((1 # 2) + smalldt / 2),
      [(1 # 2) + smalldt; 1 # 2; (1 # 2) + middt; 1 # 2; (1 # 2) + bigdt; 1 # 2])) /\
  (InvalidQuery_spec None (Some 0) "up" = false /\
   getTransit (E := triangle_day) 1 (SrcSky origin) (TimeObj (1 # 2))
              (LocEarth nenufar) None (Some 0) "deg" "up" []
   = (Raise (AssertionError "way must be either rise or set"), [])).
Proof.
  repeat split.
Qed.

(** * Further properties of the module *)

(** ** Letter case *)

Lemma lower_ascii_idempotent (c : ascii) :
  lower_ascii (lower_ascii c) = lower_ascii c.
Proof. destruct c as [[] [] [] [] [] [] [] []]; reflexivity. Qed.

Lemma lower_idempotent (s : string) : lower (lower s) = lower s.
Proof.
  induction s as [|c s IH]; [reflexivity|].
  cbn. rewrite lower_ascii_idempotent, IH. reflexivity.
Qed.

Lemma way_ok_lower (way : string) : way_ok (lower way) = way_ok way.
Proof. unfold way_ok. rewrite lower_idempotent. reflexivity. Qed.

Lemma getSrc_unit_lower {E : Externals} (source : PySource) (time : PyTime)
      (loc : PyLoc) (unit : string) :
  getSrc source time loc (lower unit) = getSrc source time loc unit.
Proof.
  destruct source; cbn [getSrc]; try reflexivity.
  rewrite lower_idempotent. reflexivity.
Qed.

Lemma bracket_value_way_lower {E : Externals} (s : SkyCoord) (l : EarthLocation)
      (az el : option Q) (way : string) (dt : TimeDelta) (t : Time) :
  bracket_value s l az el (lower way) dt t = bracket_value s l az el way dt t.
Proof. unfold bracket_value. rewrite lower_idempotent. reflexivity. Qed.

Lemma scan_way_lower {E : Externals} (s : SkyCoord) (l : EarthLocation)
      (az el : option Q) (way : string) (dt : TimeDelta) (fuel : nat) (t : Time) :
  scan s l az el (lower way) dt fuel t = scan s l az el way dt fuel t.
Proof.
  revert t. induction fuel as [|fuel IH]; intros t; [reflexivity|].
  cbn. unfold crossing. rewrite bracket_value_way_lower, IH. reflexivity.
Qed.

Lemma scan_log_way_lower {E : Externals} (s : SkyCoord) (l : EarthLocation)
      (az el : option Q) (way : string) (dt : TimeDelta) (fuel : nat)
      (t : Time) (log : Log) :
  scan_log s l az el (lower way) dt fuel t log = scan_log s l az el way dt fuel t log.
Proof.
  revert t log. induction fuel as [|fuel IH]; intros t log; [reflexivity|].
  cbn. unfold crossing. rewrite bracket_value_way_lower, IH. reflexivity.
Qed.

Lemma passes_zero_invalid {E : Externals}
      (s : SkyCoord) (l : EarthLocation) (az el : option Q) (way : string)
      (t0 : Time) (log : Log) :
  passes 0 s l az el way t0 log = (OutOfFuel, log).
Proof. reflexivity. Qed.

Lemma passes_way_lower {E : Externals} (fuel : nat)
      (s : SkyCoord) (l : EarthLocation) (az el : option Q) (way : string)
      (t0 : Time) (log : Log) :
  passes fuel s l az el (lower way) t0 log = passes fuel s l az el way t0 log.
Proof.
  destruct (one_target az el) eqn:H1.
  - rewrite !passes_search by assumption.
    unfold search3, search3_log, scan_outcome.
    rewrite !scan_way_lower, !scan_log_way_lower.
    destruct (scan s l az el way bigdt fuel t0) as [t|]; [|reflexivity].
    cbn [obind]. rewrite !scan_way_lower, !scan_log_way_lower.
    destruct (scan s l az el way middt fuel t) as [t'|]; [|reflexivity].
    cbn [obind]. rewrite !scan_way_lower, !scan_log_way_lower. reflexivity.
  - destruct fuel as [|fuel]; [reflexivity|].
    rewrite !passes_invalid by assumption. reflexivity.
Qed.

(** X1.  [getTransit] reads [way] and [unit] through [str.lower] only:
    the outcome and the evaluator calls are those of the lower-cased
    arguments, so any spelling of 'rise', 'set' or 'deg' in capitals is
    the same query. *)
Theorem getTransit_case_insensitive {E : Externals} (fuel : nat)
        (source : PySource) (time : PyTime) (loc : PyLoc)
        (az el : option Q) (unit way : string) (log : Log) :
  getTransit fuel source time loc az el (lower unit) (lower way) log
  = getTransit fuel source time loc az el unit way log.
Proof.
  rewrite !getTransit_eq.
  destruct (getTime time None) as [t0| |]; try reflexivity.
  destruct (getLoc loc "deg") as [l| |]; try reflexivity.
  rewrite getSrc_unit_lower.
  destruct (getSrc source (TimeObj t0) (LocEarth l) unit) as [s| |];
    try reflexivity.
  rewrite way_ok_lower, passes_way_lower. reflexivity.
Qed.

(** ** What the wrappers return *)

Lemma getTransit_fine_bracket {E : Externals} (fuel : nat)
      (source : PySource) (time : PyTime) (loc : PyLoc)
      (az el : option Q) (unit way : string) (log log' : Log) (r : Time) :
  getTransit fuel source time loc az el unit way log = (Ret r, log') ->
  exists (t0 : Time) (l : EarthLocation) (s : SkyCoord) (t'' : Time),
    getTime time None = Ret t0 /\ getLoc loc "deg" = Ret l /\
    getSrc source (TimeObj t0) (LocEarth l) unit = Ret s /\
    r = t'' + smalldt / 2 /\
    bracket_value s l az el way smalldt t'' = Some true.
Proof.
  intros Hrun.
  destruct (getTransit_returns _ _ _ _ _ _ _ _ _ _ _ Hrun)
    as (t0 & l & s & Ht & Hl & Hs & _ & _ & Hsearch).
  destruct (search3_returns _ _ _ _ _ _ _ _ Hsearch)
    as (t & t' & t'' & _ & _ & Hf & Hr).
  destruct (scan_first _ _ _ _ _ _ _ _ _ Hf) as (_ & _ & _ & Hcross & _).
  exists t0, l, s, t''. repeat split; try assumption.
  unfold crossing in Hcross.
  destruct (bracket_value s l az el way smalldt t'') as [[|]|];
    (reflexivity || discriminate).
Qed.

(** X2.  When [riseTime] returns [r], the elevation of the resolved
    source is at most 0 at [r - 2.5 s] and at least 0 at [r + 2.5 s]:
    [r] is the middle of a 5 s step [t'', t'' + 5 s] over which the
    source comes up through the horizon. *)
Theorem riseTime_brackets_horizon {E : Externals} (fuel : nat)
        (source : PySource) (time : PyTime) (loc : PyLoc) (unit : string)
        (log log' : Log) (r : Time) :
  riseTime fuel source time loc unit log = (Ret r, log') ->
  exists (t0 : Time) (l : EarthLocation) (s : SkyCoord) (t'' : Time),
    getTime time None = Ret t0 /\ getLoc loc "deg" = Ret l /\
    getSrc source (TimeObj t0) (LocEarth l) unit = Ret s /\
    r = t'' + smalldt / 2 /\
    alt_deg (transform_to s t'' l) <= 0 /\
    0 <= alt_deg (transform_to s (t'' + smalldt) l).
Proof.
  unfold riseTime. intros Hrun.
  destruct (getTransit_fine_bracket _ _ _ _ _ _ _ _ _ _ _ Hrun)
    as (t0 & l & s & t'' & Ht & Hl & Hs & Hr & Hb).
  exists t0, l, s, t''. repeat split; try assumption;
    cbn in Hb; injection Hb as Hb; apply between_iff in Hb; apply Hb.
Qed.

Lemma riseTime_brackets_horizon_witness :
  exists (r : Time) (log' : Log),
    riseTime (E := triangle_day) 10 (SrcSky origin)
             (TimeObj ((1 # 4) - (7 # 1000))) (LocEarth nenufar) "deg" []
    = (Ret r, log') /\
    exists (t0 : Time) (l : EarthLocation) (s : SkyCoord) (t'' : Time),
      getTime (E := triangle_day) (TimeObj ((1 # 4) - (7 # 1000))) None = Ret t0 /\
      getLoc (E := triangle_day) (LocEarth nenufar) "deg" = Ret l /\
      getSrc (E := triangle_day) (SrcSky origin) (TimeObj t0) (LocEarth l) "deg"
      = Ret s /\
      r = t'' + smalldt / 2 /\
      alt_deg (transform_to (Externals := triangle_day) s t'' l) <= 0 /\
      0 <= alt_deg (transform_to (Externals := triangle_day) s (t'' + smalldt) l).
Proof.
  eexists. eexists. split.
  - vm_compute. reflexivity.
  - eapply (riseTime_brackets_horizon (E := triangle_day) 10 (SrcSky origin)
             (TimeObj ((1 # 4) - (7 # 1000))) (LocEarth nenufar) "deg" []).
    vm_compute. reflexivity.
Defined.

(** X3.  When [setTime] returns [r], the elevation of the resolved
    source is at least 0 at [r - 2.5 s] and at most 0 at [r + 2.5 s]. *)
Theorem setTime_brackets_horizon {E : Externals} (fuel : nat)
        (source : PySource) (time : PyTime) (loc : PyLoc) (unit : string)
        (log log' : Log) (r : Time) :
  setTime fuel source time loc unit log = (Ret r, log') ->
  exists (t0 : Time) (l : EarthLocation) (s : SkyCoord) (t'' : Time),
    getTime time None = Ret t0 /\ getLoc loc "deg" = Ret l /\
    getSrc source (TimeObj t0) (LocEarth l) unit = Ret s /\
    r = t'' + smalldt / 2 /\
    0 <= alt_deg (transform_to s t'' l) /\
    alt_deg (transform_to s (t'' + smalldt) l) <= 0.
Proof.
  unfold setTime. intros Hrun.
  destruct (getTransit_fine_bracket _ _ _ _ _ _ _ _ _ _ _ Hrun)
    as (t0 & l & s & t'' & Ht & Hl & Hs & Hr & Hb).
  exists t0, l, s, t''. repeat split; try assumption;
    cbn in Hb; injection Hb as Hb; apply between_iff in Hb; apply Hb.
Qed.

Lemma setTime_brackets_horizon_witness :
  exists (r : Time) (log' : Log),
    setTime (E := triangle_day) 10 (SrcSky origin)
            (TimeObj ((3 # 4) - (7 # 1000))) (LocEarth nenufar) "deg" []
    = (Ret r, log') /\
    exists (t0 : Time) (l : EarthLocation) (s : SkyCoord) (t'' : Time),
      getTime (E := triangle_day) (TimeObj ((3 # 4) - (7 # 1000))) None = Ret t0 /\
      getLoc (E := triangle_day) (LocEarth nenufar) "deg" = Ret l /\
      getSrc (E := triangle_day) (SrcSky origin) (TimeObj t0) (LocEarth l) "deg"
      = Ret s /\
      r = t'' + smalldt / 2 /\
      0 <= alt_deg (transform_to (Externals := triangle_day) s t'' l) /\
      alt_deg (transform_to (Externals := triangle_day) s (t'' + smalldt) l) <= 0.
Proof.
  eexists. eexists. split.
  - vm_compute. reflexivity.
  - eapply (setTime_brackets_horizon (E := triangle_day) 10 (SrcSky origin)
             (TimeObj ((3 # 4) - (7 # 1000))) (LocEarth nenufar) "deg" []).
    vm_compute. reflexivity.
Defined.

(** X4.  When [meridianTime] returns [r], the azimuth of the resolved
    source is at most 180 degrees at [r - 2.5 s] and at least 180
    degrees at [r + 2.5 s]: only an ascending passage through azimuth
    180 is ever reported. *)
Theorem meridianTime_brackets_south {E : Externals} (fuel : nat)
        (source : PySource) (time : PyTime) (loc : PyLoc) (unit : string)
        (log log' : Log) (r : Time) :
  meridianTime fuel source time loc unit log = (Ret r, log') ->
  exists (t0 : Time) (l : EarthLocation) (s : SkyCoord) (t'' : Time),
    getTime time None = Ret t0 /\ getLoc loc "deg" = Ret l /\
    getSrc source (TimeObj t0) (LocEarth l) unit = Ret s /\
    r = t'' + smalldt / 2 /\
    az_deg (transform_to s t'' l) <= 180 /\
    180 <= az_deg (transform_to s (t'' + smalldt) l).
Proof.
  unfold meridianTime. intros Hrun.
  destruct (getTransit_fine_bracket _ _ _ _ _ _ _ _ _ _ _ Hrun)
    as (t0 & l & s & t'' & Ht & Hl & Hs & Hr & Hb).
  exists t0, l, s, t''. repeat split; try assumption;
    cbn in Hb; injection Hb as Hb; apply between_iff in Hb; apply Hb.
Qed.

Lemma meridianTime_brackets_south_witness :
  exists (r : Time) (log' : Log),
    meridianTime (E := triangle_day) 10 (SrcSky origin)
                 (TimeObj ((1 # 2) - (7 # 1000))) (LocEarth nenufar) "deg" []
    = (Ret r, log') /\
    exists (t0 : Time) (l : EarthLocation) (s : SkyCoord) (t'' : Time),
      getTime (E := triangle_day) (TimeObj ((1 # 2) - (7 # 1000))) None = Ret t0 /\
      getLoc (E := triangle_day) (LocEarth nenufar) "deg" = Ret l /\
      getSrc (E := triangle_day) (SrcSky origin) (TimeObj t0) (LocEarth l) "deg"
      = Ret s /\
      r = t'' + smalldt / 2 /\
      az_deg (transform_to (Externals := triangle_day) s t'' l) <= 180 /\
      180 <= az_deg (transform_to (Externals := triangle_day) s (t'' + smalldt) l).
Proof.
  eexists. eexists. split.
  - vm_compute. reflexivity.
  - eapply (meridianTime_brackets_south (E := triangle_day) 10 (SrcSky origin)
             (TimeObj ((1 # 2) - (7 # 1000))) (LocEarth nenufar) "deg" []).
    vm_compute. reflexivity.
Defined.

(** ** Where the result lies *)

Lemma inject_nat_nonneg (k : nat) : 0 <= inject_Z (Z.of_nat k).
Proof. change 0 with (inject_Z 0). rewrite <- Zle_Qle. lia. Qed.

Lemma inject_nat_le (j k : nat) :
  (j <= k)%nat -> inject_Z (Z.of_nat j) <= inject_Z (Z.of_nat k).
Proof. intros H. rewrite <- Zle_Qle. lia. Qed.

Lemma advance_le (dt : TimeDelta) (j k : nat) (t : Time) :
  0 <= dt -> (j <= k)%nat -> advance dt j t <= advance dt k t.
Proof.
  intros Hdt Hjk. rewrite !advance_days.
  pose proof (inject_nat_le j k Hjk). nra.
Qed.

Lemma advance_ge_start (dt : TimeDelta) (k : nat) (t : Time) :
  0 <= dt -> t <= advance dt k t.
Proof. intros Hdt. apply (advance_le dt 0 k t Hdt). lia. Qed.

Lemma bigdt_nonneg : 0 <= bigdt.
Proof. steps_lra. Qed.

(** The three indices of a result: the first bracket of the coarse grid,
    then, when the transform is a function of the instant, one of the 6
    mid steps and one of the 60 fine steps inside it. *)
Lemma search3_indices {E : Externals} (fuel : nat)
      (s : SkyCoord) (l : EarthLocation) (az el : option Q) (way : string)
      (t0 r : Time) :
  transform_respects_time ->
  search3 s l az el way fuel t0 = Ret r ->
  exists i j k : nat,
    (i < fuel)%nat /\ (j < 6)%nat /\ (k < 60)%nat /\
    crossing s l az el way bigdt (advance bigdt i t0) = true /\
    (forall i', (i' < i)%nat ->
                crossing s l az el way bigdt (advance bigdt i' t0) = false) /\
    r = advance smalldt k (advance middt j (advance bigdt i t0)) + smalldt / 2.
Proof.
  intros Hpure Hsearch.
  destruct (search3_returns _ _ _ _ _ _ _ _ Hsearch)
    as (t & t' & t'' & Hc & Hm & Hf & Hr).
  destruct (scan_first _ _ _ _ _ _ _ _ _ Hc) as (i & Hi & -> & Hci & Hfirst).
  destruct (scan_first _ _ _ _ _ _ _ _ _ Hm) as (j & Hj & -> & Hcj & Hfirstj).
  destruct (scan_first _ _ _ _ _ _ _ _ _ Hf) as (k & Hk & -> & Hck & Hfirstk).
  exists i, j, k. repeat split; try assumption.
  - destruct (refine_inside s l az el way bigdt middt 6 _ Hpure
                ltac:(lia) six_middt Hci) as (j0 & Hj0 & Hcj0).
    destruct (Nat.lt_ge_cases j0 j) as [Hlt|Hge]; [|lia].
    rewrite (Hfirstj j0 Hlt) in Hcj0. discriminate.
  - destruct (refine_inside s l az el way middt smalldt 60 _ Hpure
                ltac:(lia) sixty_smalldt Hcj) as (k0 & Hk0 & Hck0).
    destruct (Nat.lt_ge_cases k0 k) as [Hlt|Hge]; [|lia].
    rewrite (Hfirstk k0 Hlt) in Hck0. discriminate.
Qed.

(** X5.  With a transform that is a function of the instant, a result
    of [getTransit] lies on the grid of the three strides: it is the
    start plus [i] steps of 1800 s, [j < 6] steps of 300 s, [k < 60]
    steps of 5 s and 2.5 s. *)
Theorem getTransit_result_on_grid {E : Externals} (fuel : nat)
        (source : PySource) (time : PyTime) (loc : PyLoc)
        (az el : option Q) (unit way : string) (log log' : Log) (r : Time) :
  transform_respects_time ->
  getTransit fuel source time loc az el unit way log = (Ret r, log') ->
  exists (t0 : Time) (i j k : nat),
    getTime time None = Ret t0 /\ (j < 6)%nat /\ (k < 60)%nat /\
    r == t0 + inject_Z (Z.of_nat i) * bigdt + inject_Z (Z.of_nat j) * middt
         + inject_Z (Z.of_nat k) * smalldt + smalldt / 2.
Proof.
  intros Hpure Hrun.
  destruct (getTransit_returns _ _ _ _ _ _ _ _ _ _ _ Hrun)
    as (t0 & l & s & Ht & _ & _ & _ & _ & Hsearch).
  destruct (search3_indices _ _ _ _ _ _ _ _ Hpure Hsearch)
    as (i & j & k & _ & Hj & Hk & _ & _ & ->).
  exists t0, i, j, k. repeat split; try assumption.
  rewrite !advance_days. ring.
Qed.

Lemma getTransit_result_on_grid_witness :
  exists (r : Time) (log' : Log),
    getTransit (E := triangle_day) 10 (SrcSky origin)
               (TimeObj ((1 # 4) - (7 # 1000))) (LocEarth nenufar)
               None (Some 0) "deg" "rise" []
    = (Ret r, log') /\
    exists (t0 : Time) (i j k : nat),
      getTime (E := triangle_day) (TimeObj ((1 # 4) - (7 # 1000))) None = Ret t0 /\
      (j < 6)%nat /\ (k < 60)%nat /\
      r == t0 + inject_Z (Z.of_nat i) * bigdt + inject_Z (Z.of_nat j) * middt
           + inject_Z (Z.of_nat k) * smalldt + smalldt / 2.
Proof.
  eexists. eexists. split.
  - vm_compute. reflexivity.
  - eapply (getTransit_result_on_grid (E := triangle_day) 10 (SrcSky origin)
              (TimeObj ((1 # 4) - (7 # 1000))) (LocEarth nenufar)
              None (Some 0) "deg" "rise" []).
    + exact triangle_day_pure.
    + vm_compute. reflexivity.
Defined.

(** X6.  [getTransit] reports the first bracket of the coarse grid: when
    it returns [r], some coarse step [i] passes the bracket test, no
    earlier coarse step does, and [r] is at least 2.5 s after the start
    of that step. *)
Theorem getTransit_first_coarse_bracket {E : Externals} (fuel : nat)
        (source : PySource) (time : PyTime) (loc : PyLoc)
        (az el : option Q) (unit way : string) (log log' : Log) (r : Time) :
  getTransit fuel source time loc az el unit way log = (Ret r, log') ->
  exists (t0 : Time) (l : EarthLocation) (s : SkyCoord) (i : nat),
    getTime time None = Ret t0 /\ getLoc loc "deg" = Ret l /\
    getSrc source (TimeObj t0) (LocEarth l) unit = Ret s /\
    bracket_value s l az el way bigdt (advance bigdt i t0) = Some true /\
    (forall i', (i' < i)%nat ->
       bracket_value s l az el way bigdt (advance bigdt i' t0) = Some false) /\
    advance bigdt i t0 + TimeDelta_sec (5 # 2) <= r.
Proof.
  intros Hrun.
  destruct (getTransit_returns _ _ _ _ _ _ _ _ _ _ _ Hrun)
    as (t0 & l & s & Ht & Hl & Hs & _ & H1 & Hsearch).
  destruct (search3_returns _ _ _ _ _ _ _ _ Hsearch)
    as (t & t' & t'' & Hc & Hm & Hf & ->).
  destruct (scan_first _ _ _ _ _ _ _ _ _ Hc) as (i & _ & -> & Hci & Hfirst).
  destruct (scan_first _ _ _ _ _ _ _ _ _ Hm) as (j & _ & -> & _).
  destruct (scan_first _ _ _ _ _ _ _ _ _ Hf) as (k & _ & -> & _).
  assert (Hsome : forall dt t, exists b,
             bracket_value s l az el way dt t = Some b).
  { intros dt t. unfold bracket_value, one_target in *.
    destruct az, el; cbn in H1; try discriminate; eauto.
    destruct (lower way =? "rise")%string; eauto.
    destruct (lower way =? "set")%string; eauto. }
  exists t0, l, s, i.
  split; [exact Ht|]. split; [exact Hl|]. split; [exact Hs|].
  split; [|split].
  - now apply crossing_bracket_value.
  - intros i' Hi'. specialize (Hfirst i' Hi'). unfold crossing in Hfirst.
    destruct (Hsome bigdt (advance bigdt i' t0)) as [[|] Hb];
      rewrite Hb in Hfirst |- *; [discriminate|reflexivity].
  - pose proof (advance_ge_start middt j (advance bigdt i t0) middt_nonneg).
    pose proof (advance_ge_start smalldt k
                  (advance middt j (advance bigdt i t0)) smalldt_nonneg).
    pose proof half_smalldt. pose proof half_step_seconds.
    set (h := smalldt / 2) in *. lra.
Qed.

Lemma getTransit_first_coarse_bracket_witness :
  exists (r : Time) (log' : Log),
    getTransit (E := triangle_day) 60 (SrcSky origin)
               (TimeObj ((3 # 4) - (1 # 20))) (LocEarth nenufar)
               None (Some 0) "deg" "set" []
    = (Ret r, log') /\
    exists (t0 : Time) (l : EarthLocation) (s : SkyCoord) (i : nat),
      getTime (E := triangle_day) (TimeObj ((3 # 4) - (1 # 20))) None = Ret t0 /\
      getLoc (E := triangle_day) (LocEarth nenufar) "deg" = Ret l /\
      getSrc (E := triangle_day) (SrcSky origin) (TimeObj t0) (LocEarth l) "deg"
      = Ret s /\
      bracket_value (E := triangle_day) s l None (Some 0) "set" bigdt
                    (advance bigdt i t0) = Some true /\
      (forall i', (i' < i)%nat ->
         bracket_value (E := triangle_day) s l None (Some 0) "set" bigdt
                       (advance bigdt i' t0) = Some false) /\
      advance bigdt i t0 + TimeDelta_sec (5 # 2) <= r.
Proof.
  eexists. eexists. split.
  - vm_compute. reflexivity.
  - eapply (getTransit_first_coarse_bracket (E := triangle_day) 60 (SrcSky origin)
              (TimeObj ((3 # 4) - (1 # 20))) (LocEarth nenufar)
              None (Some 0) "deg" "set" []).
    vm_compute. reflexivity.
Defined.

(** ** When the search returns *)



(** X8.  Whatever the transform, an instant returned by [getTransit] is
    at least 2.5 seconds after the resolved start: the search only steps
    forward. *)
Theorem getTransit_after_start {E : Externals} (fuel : nat)
        (source : PySource) (time : PyTime) (loc : PyLoc)
        (az el : option Q) (unit way : string) (log log' : Log) (r : Time) :
  getTransit fuel source time loc az el unit way log = (Ret r, log') ->
  exists t0 : Time,
    getTime time None = Ret t0 /\ t0 + TimeDelta_sec (5 # 2) <= r.
Proof.
  intros Hrun.
  destruct (getTransit_returns _ _ _ _ _ _ _ _ _ _ _ Hrun)
    as (t0 & l & s & Ht & _ & _ & _ & _ & Hsearch).
  destruct (search3_returns _ _ _ _ _ _ _ _ Hsearch)
    as (t & t' & t'' & Hc & Hm & Hf & ->).
  destruct (scan_first _ _ _ _ _ _ _ _ _ Hc) as (i & _ & -> & _).
  destruct (scan_first _ _ _ _ _ _ _ _ _ Hm) as (j & _ & -> & _).
  destruct (scan_first _ _ _ _ _ _ _ _ _ Hf) as (k & _ & -> & _).
  exists t0. split; [assumption|].
  pose proof (advance_ge_start bigdt i t0 bigdt_nonneg).
  pose proof (advance_ge_start middt j (advance bigdt i t0) middt_nonneg).
  pose proof (advance_ge_start smalldt k
                (advance middt j (advance bigdt i t0)) smalldt_nonneg).
  pose proof half_smalldt. pose proof half_step_seconds.
  set (h := smalldt / 2) in *. lra.
Qed.

Lemma getTransit_after_start_witness :
  exists (r : Time) (log' : Log),
    getTransit (E := triangle_day) 10 (SrcSky origin)
               (TimeObj (1 # 2)) (LocEarth nenufar)
               (Some 180) None "deg" "rise" []
    = (Ret r, log') /\
    exists t0 : Time,
      getTime (E := triangle_day) (TimeObj (1 # 2)) None = Ret t0 /\
      t0 + TimeDelta_sec (5 # 2) <= r.
Proof.
  eexists. eexists. split.
  - vm_compute. reflexivity.
  - eapply (getTransit_after_start (E := triangle_day) 10 (SrcSky origin)
              (TimeObj (1 # 2)) (LocEarth nenufar)
              (Some 180) None "deg" "rise" []).
    vm_compute. reflexivity.
Defined.

(** ** The evaluator calls *)

Lemma scan_log_extends {E : Externals} (s : SkyCoord) (l : EarthLocation)
      (az el : option Q) (way : string) (dt : TimeDelta) (fuel : nat)
      (t : Time) (log : Log) :
  exists (samples : Log) (n : nat),
    scan_log s l az el way dt fuel t log = (samples ++ log)%list /\
    length samples = (2 * n)%nat /\ (n <= fuel)%nat.
Proof.
  revert t log. induction fuel as [|fuel IH]; intros t log.
  - exists [], 0%nat. split; [reflexivity|]. split; [reflexivity|lia].
  - cbn. destruct (crossing s l az el way dt t).
    + exists [t + dt; t], 1%nat. split; [reflexivity|]. split; [reflexivity|lia].
    + destruct (IH (t + dt) ((t + dt) :: t :: log)) as (ms & n & Hlog & Hlen & Hn).
      exists (ms ++ [t + dt; t])%list, (S n). rewrite <- app_assoc.
      split; [exact Hlog|]. rewrite length_app, Hlen. cbn. lia.
Qed.

(** X9.  [getTransit] only adds to the record of evaluator calls, and
    adds them in pairs: whatever the outcome, the log it leaves is the
    log it found preceded by [2 * n] sampled instants, with [n] at most
    the number of loop steps allowed to the three passes. *)
Theorem getTransit_calls_in_pairs {E : Externals} (fuel : nat)
        (source : PySource) (time : PyTime) (loc : PyLoc)
        (az el : option Q) (unit way : string) (log : Log) :
  exists (samples : Log) (n : nat),
    snd (getTransit fuel source time loc az el unit way log)
    = (samples ++ log)%list /\
    length samples = (2 * n)%nat /\ (n <= 3 * fuel)%nat.
Proof.
  rewrite getTransit_eq.
  assert (Hnone : exists (samples : Log) (n : nat),
             log = (samples ++ log)%list /\
             length samples = (2 * n)%nat /\ (n <= 3 * fuel)%nat).
  { exists [], 0%nat. split; [reflexivity|]. split; [reflexivity|lia]. }
  destruct (getTime time None) as [t0| |]; try exact Hnone.
  destruct (getLoc loc "deg") as [l| |]; try exact Hnone.
  destruct (getSrc source (TimeObj t0) (LocEarth l) unit) as [s| |];
    try exact Hnone.
  destruct (way_ok way); [|exact Hnone].
  destruct (one_target az el) eqn:H1.
  - rewrite passes_search by assumption. cbn [snd]. unfold search3_log.
    destruct (scan_log_extends s l az el way bigdt fuel t0 log)
      as (cs & nc & Hc & Hclen & Hcn).
    rewrite Hc.
    destruct (scan s l az el way bigdt fuel t0) as [t|].
    + destruct (scan_log_extends s l az el way middt fuel t (cs ++ log)%list)
        as (ms & nm & Hm & Hmlen & Hmn).
      rewrite Hm.
      destruct (scan s l az el way middt fuel t) as [t'|].
      * destruct (scan_log_extends s l az el way smalldt fuel t'
                    (ms ++ cs ++ log)%list)
          as (fs & nf & Hf & Hflen & Hfn).
        rewrite Hf.
        exists (fs ++ ms ++ cs)%list, (nf + nm + nc)%nat.
        rewrite <- !app_assoc. split; [reflexivity|].
        rewrite !length_app. lia.
      * exists (ms ++ cs)%list, (nm + nc)%nat.
        rewrite <- !app_assoc. split; [reflexivity|].
        rewrite !length_app. lia.
    + exists cs, nc. split; [reflexivity|]. lia.
  - destruct fuel as [|fuel]; [exact Hnone|].
    rewrite passes_invalid by assumption. exact Hnone.
Qed.

(** X10.  The unbounded first loop in general: for a resolved and valid
    query none of whose coarse steps passes the bracket test,
    [getTransit] is still in its first loop after any number of steps,
    with two evaluator calls made for each of them. *)
Theorem getTransit_without_bracket_runs_on {E : Externals} (fuel : nat)
        (source : PySource) (time : PyTime) (loc : PyLoc)
        (az el : option Q) (unit way : string) (log : Log)
        (t0 : Time) (l : EarthLocation) (s : SkyCoord) :
  getTime time None = Ret t0 ->
  getLoc loc "deg" = Ret l ->
  getSrc source (TimeObj t0) (LocEarth l) unit = Ret s ->
  way_ok way = true ->
  (forall k, bracket_value s l az el way bigdt (advance bigdt k t0) = Some false) ->
  exists log',
    getTransit fuel source time loc az el unit way log = (OutOfFuel, log') /\
    length log' = (2 * fuel + length log)%nat.
Proof.
  intros Ht Hl Hs Hw Hnone.
  assert (H1 : one_target az el = true).
  { specialize (Hnone 0%nat). unfold bracket_value, one_target in *.
    destruct az, el; cbn; (reflexivity || discriminate). }
  rewrite getTransit_eq, Ht, Hl, Hs, Hw.
  apply no_crossing_no_exit; [assumption|].
  intros k. unfold crossing. rewrite Hnone. reflexivity.
Qed.

Lemma getTransit_without_bracket_runs_on_witness :
  exists log',
    getTransit (E := circumpolar) 500 (SrcSky origin) (TimeObj 2460000)
               (LocEarth nenufar) None (Some 0) "deg" "set" [1 # 2]
    = (OutOfFuel, log') /\
    length log' = (2 * 500 + length [1 # 2])%nat.
Proof.
  apply (getTransit_without_bracket_runs_on (E := circumpolar) 500
           (SrcSky origin) (TimeObj 2460000) (LocEarth nenufar)
           None (Some 0) "deg" "set" [1 # 2] 2460000 nenufar origin);
    reflexivity.
Defined.

(** X11.  The wrappers cannot fail the validation of [getTransit]: once
    the time, the location and the source are resolved, [riseTime],
    [setTime] and [meridianTime] raise no exception at all. *)
Theorem wrappers_raise_nothing {E : Externals} (fuel : nat)
        (source : PySource) (time : PyTime) (loc : PyLoc) (unit : string)
        (log : Log) (t0 : Time) (l : EarthLocation) (s : SkyCoord) (e : exn) :
  getTime time None = Ret t0 ->
  getLoc loc "deg" = Ret l ->
  getSrc source (TimeObj t0) (LocEarth l) unit = Ret s ->
  fst (riseTime fuel source time loc unit log) <> Raise e /\
  fst (setTime fuel source time loc unit log) <> Raise e /\
  fst (meridianTime fuel source time loc unit log) <> Raise e.
Proof.
  intros Ht Hl Hs. unfold riseTime, setTime, meridianTime.
  rewrite !getTransit_eq, Ht, Hl, Hs.
  change (way_ok "rise") with true. change (way_ok "set") with true.
  cbv iota. rewrite !passes_search by reflexivity. cbn [fst].
  repeat split; apply search3_no_raise.
Qed.

Lemma wrappers_raise_nothing_witness :
  fst (riseTime (E := triangle_day) 5 (SrcSky origin) (TimeObj 0)
                (LocEarth nenufar) "deg" [])
  <> Raise (ValueError "either az or el parameters should not be None") /\
  fst (setTime (E := triangle_day) 5 (SrcSky origin) (TimeObj 0)
               (LocEarth nenufar) "deg" [])
  <> Raise (ValueError "either az or el parameters should not be None") /\
  fst (meridianTime (E := triangle_day) 5 (SrcSky origin) (TimeObj 0)
                    (LocEarth nenufar) "deg" [])
  <> Raise (ValueError "either az or el parameters should not be None").
Proof.
  apply (wrappers_raise_nothing (E := triangle_day) 5 (SrcSky origin)
           (TimeObj 0) (LocEarth nenufar) "deg" [] 0 nenufar origin);
    reflexivity.
Defined.

(** ** Coordinate tuples *)

Lemma latitude_ok_iff (x : Q) : latitude_ok x = true <-> -90 <= x /\ x <= 90.
Proof. apply between_iff. Qed.

(** X12.  [getSrc] resolves a coordinate tuple exactly when it has two
    components, the unit, lower-cased, is not 'deg', and the second
    component, converted by [np.degrees], is a declination between -90
    and 90 degrees. *)
Theorem getSrc_tuple_returns_iff {E : Externals} (xs : list Q)
        (time : PyTime) (loc : PyLoc) (unit : string) :
  (exists c : SkyCoord, getSrc (SrcTuple xs) time loc unit = Ret c) <->
  length xs = 2%nat /\ lower unit <> "deg" /\
  -90 <= np_degrees (nth 1 xs 0) /\ np_degrees (nth 1 xs 0) <= 90.
Proof.
  unfold getSrc, py_assert, SkyCoord_of.
  destruct (Nat.eqb_spec (length xs) 2) as [Hlen|Hlen]; cbn [obind].
  - destruct (String.eqb_spec (lower unit) "deg") as [Hu|Hu]; cbn.
    + split; [intros [c H]; discriminate|]. intros (_ & Hne & _). contradiction.
    + pose proof (latitude_ok_iff (np_degrees (nth 1 xs 0))) as Hlat.
      destruct (latitude_ok (np_degrees (nth 1 xs 0))).
      * split; [|eauto]. intros _.
        split; [assumption|]. split; [assumption|]. now apply Hlat.
      * split; [intros [c H]; discriminate|].
        intros (_ & _ & Hd). apply Hlat in Hd. discriminate.
  - split; [intros [c H]; discriminate|]. intros (Hl & _). contradiction.
Qed.

(** X13.  A tuple that does not have exactly two components is turned
    down by [getLoc], [getSrc] and [getAltaz] alike, with the assertion
    'Only length 2 tuple is understood.', whatever the unit; [getAltaz]
    does so before it resolves the time or calls the transform. *)
Theorem tuple_length_asserted {E : Externals} (xs : list Q)
        (time : PyTime) (loc : PyLoc) (unit : string) (log : Log) :
  length xs <> 2%nat ->
  getLoc (LocTuple xs) unit
  = Raise (AssertionError "Only length 2 tuple is understood.") /\
  getSrc (SrcTuple xs) time loc unit
  = Raise (AssertionError "Only length 2 tuple is understood.") /\
  getAltaz (SrcTuple xs) time loc unit log
  = (Raise (AssertionError "Only length 2 tuple is understood."), log).
Proof.
  intros Hlen. unfold getLoc, getSrc, getAltaz, bind, lift, py_assert.
  destruct (Nat.eqb_spec (length xs) 2) as [H|H]; [contradiction|].
  repeat split.
Qed.

Lemma tuple_length_asserted_witness :
  getLoc (E := triangle_day) (LocTuple [1; 2; 3]) "deg"
  = Raise (AssertionError "Only length 2 tuple is understood.") /\
  getSrc (E := triangle_day) (SrcTuple [1; 2; 3]) TimeOther LocOther "deg"
  = Raise (AssertionError "Only length 2 tuple is understood.") /\
  getAltaz (E := triangle_day) (SrcTuple [1; 2; 3]) TimeOther LocOther "deg" []
  = (Raise (AssertionError "Only length 2 tuple is understood."), []).
Proof.
  apply (tuple_length_asserted (E := triangle_day)). cbn. lia.
Defined.

(** X14.  A coordinate pair in degrees makes [getTransit] fail: once
    the time and the location are resolved the query ends in the
    unbound-variable failure of [getSrc], before [way] is checked and
    before any evaluator call; yet [getAltaz] takes the same pair, when
    its declination lies between -90 and 90 degrees, and calls the
    transform on it. *)
Theorem getTransit_degree_tuple_fails {E : Externals} (fuel : nat)
        (xs : list Q) (time : PyTime) (loc : PyLoc)
        (az el : option Q) (unit way : string) (log : Log)
        (t0 : Time) (l : EarthLocation) :
  length xs = 2%nat -> lower unit = "deg" ->
  getTime time None = Ret t0 ->
  getLoc loc "deg" = Ret l ->
  -90 <= nth 1 xs 0 -> nth 1 xs 0 <= 90 ->
  getTransit fuel (SrcTuple xs) time loc az el unit way log
  = (Raise (UnboundLocalError "ra"), log) /\
  getAltaz (SrcTuple xs) time loc unit log
  = (Ret (transform_to (mkSkyCoord (nth 0 xs 0) (nth 1 xs 0)) t0 l), t0 :: log).
Proof.
  intros Hlen Hunit Ht Hl Hlo Hhi. split.
  - rewrite getTransit_eq, Ht, Hl. unfold getSrc. rewrite Hlen, Hunit.
    reflexivity.
  - assert (Hok : latitude_ok (nth 1 xs 0) = true)
      by (apply latitude_ok_iff; split; assumption).
    unfold getAltaz, bind, lift, SkyCoord_of.
    rewrite Hlen, Hunit, Ht, Hl. cbn. rewrite Hok. reflexivity.
Qed.

Lemma getTransit_degree_tuple_fails_witness :
  getTransit (E := triangle_day) 10 (SrcTuple [299868 # 1000; 40734 # 1000])
             (TimeStr "now") (LocStr "NenuFAR") None (Some 0) "deg" "rise" []
  = (Raise (UnboundLocalError "ra"), []) /\
  getAltaz (E := triangle_day) (SrcTuple [299868 # 1000; 40734 # 1000])
           (TimeStr "now") (LocStr "NenuFAR") "deg" []
  = (Ret (transform_to (Externals := triangle_day)
            (mkSkyCoord (299868 # 1000) (40734 # 1000)) 2460000 nenufar),
     [2460000]).
Proof.
  apply (getTransit_degree_tuple_fails (E := triangle_day) 10
           [299868 # 1000; 40734 # 1000] (TimeStr "now") (LocStr "NenuFAR")
           None (Some 0) "deg" "rise" [] 2460000 nenufar);
    (reflexivity || (cbn; lra)).
Defined.

(** X15.  Every unit other than 'deg', in any letter case, is read as
    radians: [getLoc] and [getSrc] then treat a tuple as they do for the
    unit 'rad'. *)
Theorem other_units_are_radians {E : Externals} (xs : list Q)
        (time : PyTime) (loc : PyLoc) (unit : string) :
  lower unit <> "deg" ->
  getLoc (LocTuple xs) unit = getLoc (LocTuple xs) "rad" /\
  getSrc (SrcTuple xs) time loc unit = getSrc (SrcTuple xs) time loc "rad".
Proof.
  intros Hu. unfold getLoc, getSrc.
  destruct (String.eqb_spec (lower unit) "deg") as [H|H]; [contradiction|].
  split; reflexivity.
Qed.

Lemma other_units_are_radians_witness :
  getLoc (E := triangle_day) (LocTuple [1; 2]) "Degrees"
  = getLoc (E := triangle_day) (LocTuple [1; 2]) "rad" /\
  getSrc (E := triangle_day) (SrcTuple [1; 2]) TimeOther LocOther "Degrees"
  = getSrc (E := triangle_day) (SrcTuple [1; 2]) TimeOther LocOther "rad".
Proof.
  apply (other_units_are_radians (E := triangle_day)). discriminate.
Defined.

(** ** getAltaz *)

(** X17.  [getAltaz] calls the transform once when it returns, at the
    resolved time, and not at all when it fails. *)
Theorem getAltaz_one_call {E : Externals} (source : PySource) (time : PyTime)
        (loc : PyLoc) (unit : string) (log : Log) :
  match getAltaz source time loc unit log with
  | (Ret _, log') => exists t, getTime time None = Ret t /\ log' = t :: log
  | (_, log') => log' = log
  end.
Proof.
  unfold getAltaz, bind, lift.
  destruct (match source with
            | SrcStr _ => _ | SrcTuple _ => _ | SrcSky _ => _ | SrcOther => _
            end) as [radec| |]; try reflexivity.
  destruct (getTime time None) as [t| |]; try reflexivity.
  destruct (getLoc loc "deg") as [l| |]; try reflexivity.
  destruct (match source with
            | SrcTuple _ => _ | _ => _
            end) as [c| |]; try reflexivity.
  exists t. split; reflexivity.
Qed.

(** ** getSep *)

Lemma solar_system_name_spec (name : string) :
  existsb (String.eqb (lower name)) solar_system_names = true <->
  In (lower name) solar_system_names.
Proof.
  rewrite existsb_exists. split.
  - intros (x & Hin & Heq). apply String.eqb_eq in Heq. now subst x.
  - intros Hin. exists (lower name). split; [assumption|apply String.eqb_refl].
Qed.

(** X18.  With [time] left to its default [None], neither [getSrc] nor
    [getSep] can resolve a body of the solar system: a first source
    named 'sun', 'moon', 'jupiter', 'saturn', 'mars' or 'venus', in any
    letter case, ends in the [ValueError] of [getTime]; and a degree
    pair as first source ends [getSep] in the unbound-variable
    failure. *)
Theorem getSep_default_failures {E : Externals}
        (separation : SkyCoord -> SkyCoord -> Q)
        (name : string) (xs : list Q) (source2 : PySource)
        (time : PyTime) (loc : PyLoc) (unit : string) :
  In (lower name) solar_system_names ->
  length xs = 2%nat -> lower unit = "deg" ->
  getSrc (SrcStr name) TimeOther loc unit
  = Raise (ValueError "time parameter not understood.") /\
  getSep separation (SrcStr name) source2 TimeOther loc unit
  = Raise (ValueError "time parameter not understood.") /\
  getSep separation (SrcTuple xs) source2 time loc unit
  = Raise (UnboundLocalError "ra").
Proof.
  intros Hin Hlen Hunit. apply solar_system_name_spec in Hin.
  unfold getSep, getSrc. rewrite Hin, Hlen, Hunit. repeat split.
Qed.

Lemma getSep_default_failures_witness :
  getSrc (E := catalogue) (SrcStr "Moon") TimeOther LocOther "deg"
  = Raise (ValueError "time parameter not understood.") /\
  getSep (E := catalogue) (fun _ _ => 0) (SrcStr "Moon") (SrcStr "Cyg A")
         TimeOther LocOther "deg"
  = Raise (ValueError "time parameter not understood.") /\
  getSep (E := catalogue) (fun _ _ => 0) (SrcTuple [10; 20]) (SrcStr "Cyg A")
         TimeOther LocOther "deg"
  = Raise (UnboundLocalError "ra").
Proof.
  apply (getSep_default_failures (E := catalogue) (fun _ _ => 0)
           "Moon" [10; 20] (SrcStr "Cyg A") TimeOther LocOther "deg").
  - cbn. tauto.
  - reflexivity.
  - reflexivity.
Defined.

(** X19.  A source that is not a body of the solar system is resolved
    without the time and the location: for two such names [getSep]
    returns the separation of what the name resolver gives, whatever
    [time], [loc] and [unit] are. *)
Theorem getSep_fixed_sources {E : Externals}
        (separation : SkyCoord -> SkyCoord -> Q)
        (name1 name2 : string) (c1 c2 : SkyCoord)
        (time : PyTime) (loc : PyLoc) (unit : string) :
  ~ In (lower name1) solar_system_names ->
  ~ In (lower name2) solar_system_names ->
  from_name name1 = Ret c1 -> from_name name2 = Ret c2 ->
  getSep separation (SrcStr name1) (SrcStr name2) time loc unit
  = Ret (separation c1 c2).
Proof.
  intros H1 H2 Hc1 Hc2. unfold getSep, getSrc.
  rewrite <- solar_system_name_spec in H1, H2.
  apply not_true_is_false in H1, H2.
  rewrite H1, H2, Hc1, Hc2. reflexivity.
Qed.

Lemma getSep_fixed_sources_witness :
  getSep (E := catalogue) (fun a b => ra a - ra b)
         (SrcStr "Cyg A") (SrcStr "Cyg A") TimeOther LocOther "deg"
  = Ret ((299868 # 1000) - (299868 # 1000)).
Proof.
  apply (getSep_fixed_sources (E := catalogue) (fun a b => ra a - ra b)
           "Cyg A" "Cyg A"
           (mkSkyCoord (299868 # 1000) (40734 # 1000))
           (mkSkyCoord (299868 # 1000) (40734 # 1000))
           TimeOther LocOther "deg");
    try reflexivity; cbn; intuition discriminate.
Defined.

(** ** Resolution inside getTransit *)

(** X20.  Resolving the arguments beforehand changes nothing: a query
    on a time, a location and a source that resolve is the query on
    the resolved objects, with the same outcome and the same evaluator
    calls. *)
Theorem getTransit_on_resolved {E : Externals} (fuel : nat)
        (source : PySource) (time : PyTime) (loc : PyLoc)
        (az el : option Q) (unit way : string) (log : Log)
        (t0 : Time) (l : EarthLocation) (s : SkyCoord) :
  getTime time None = Ret t0 ->
  getLoc loc "deg" = Ret l ->
  getSrc source (TimeObj t0) (LocEarth l) unit = Ret s ->
  getTransit fuel source time loc az el unit way log
  = getTransit fuel (SrcSky s) (TimeObj t0) (LocEarth l) az el unit way log.
Proof.
  intros Ht Hl Hs. rewrite !getTransit_eq, Ht, Hl, Hs. reflexivity.
Qed.

Lemma getTransit_on_resolved_witness :
  getTransit (E := catalogue) 10 (SrcStr "sun") (TimeStr "Tomorrow")
             (LocStr "Paris, France") None (Some 0) "deg" "rise" []
  = getTransit (E := catalogue) 10 (SrcSky (mkSkyCoord (2460000 + 1 - 2460000) 0))
               (TimeObj (2460000 + 1))
               (LocEarth (mkEarthLocation (488566 # 10000) (23522 # 10000)))
               None (Some 0) "deg" "rise" [].
Proof.
  apply (getTransit_on_resolved (E := catalogue)); reflexivity.
Defined.

(** X21.  [getTransit] passes on the failures of its resolvers as they
    are and in the order time, location, source, each before [way] and
    the targets are looked at and before any evaluator call. *)
Theorem getTransit_resolver_failures {E : Externals} (fuel : nat)
        (source : PySource) (time : PyTime) (loc : PyLoc)
        (az el : option Q) (unit way : string) (log : Log) (e : exn) :
  (getTime time None = Raise e ->
   getTransit fuel source time loc az el unit way log = (Raise e, log)) /\
  (forall t0,
     getTime time None = Ret t0 -> getLoc loc "deg" = Raise e ->
     getTransit fuel source time loc az el unit way log = (Raise e, log)) /\
  (forall t0 l,
     getTime time None = Ret t0 -> getLoc loc "deg" = Ret l ->
     getSrc source (TimeObj t0) (LocEarth l) unit = Raise e ->
     getTransit fuel source time loc az el unit way log = (Raise e, log)).
Proof.
  repeat split.
  - intros Ht. rewrite getTransit_eq, Ht. reflexivity.
  - intros t0 Ht Hl. rewrite getTransit_eq, Ht, Hl. reflexivity.
  - intros t0 l Ht Hl Hs. rewrite getTransit_eq, Ht, Hl, Hs. reflexivity.
Qed.

Lemma getTransit_resolver_failures_witness :
  getTransit (E := catalogue) 10 (SrcStr "Vega") TimeOther LocOther
             (Some 1) (Some 2) "deg" "sideways" []
  = (Raise (ValueError "time parameter not understood."), []) /\
  getTransit (E := catalogue) 10 (SrcStr "Vega") (TimeStr "now") LocOther
             (Some 1) (Some 2) "deg" "sideways" []
  = (Raise (ValueError
       "loc must be aither a tuple: (lon, lat) in degrees or a string adress."),
     []) /\
  getTransit (E := catalogue) 10 (SrcStr "Vega") (TimeStr "now")
             (LocStr "nenufar") (Some 1) (Some 2) "deg" "sideways" []
  = (Raise (ExternalError "from_name"), []).
Proof.
  split; [|split].
  - apply (getTransit_resolver_failures (E := catalogue) 10 (SrcStr "Vega")
             TimeOther LocOther (Some 1) (Some 2) "deg" "sideways" []).
    reflexivity.
  - apply (getTransit_resolver_failures (E := catalogue) 10 (SrcStr "Vega")
             (TimeStr "now") LocOther (Some 1) (Some 2) "deg" "sideways" []
             _) with (t0 := 2460000); reflexivity.
  - apply (getTransit_resolver_failures (E := catalogue) 10 (SrcStr "Vega")
             (TimeStr "now") (LocStr "nenufar") (Some 1) (Some 2) "deg"
             "sideways" [] _) with (t0 := 2460000) (l := nenufar); reflexivity.
Defined.

(** ** The sampling of plotElevation *)

Lemma getAltaz_resolved_any_unit {E : Externals} (s : SkyCoord)
      (l : EarthLocation) (unit : string) (t : Time) (log : Log) :
  getAltaz (SrcSky s) (TimeObj t) (LocEarth l) unit log
  = (Ret (transform_to s t l), t :: log).
Proof.
  unfold getAltaz, bind, lift; cbn. destruct s; reflexivity.
Qed.

Lemma length_array_set (i : nat) (v : Q) (a : list Q) :
  length (array_set i v a) = length a.
Proof.
  revert i. induction a as [|x a IH]; intros [|i]; cbn; try reflexivity.
  rewrite IH. reflexivity.
Qed.

Lemma firstn_array_set (i : nat) (v : Q) (a : list Q) :
  (i < length a)%nat ->
  firstn (S i) (array_set i v a) = (firstn i a ++ [v])%list.
Proof.
  revert i. induction a as [|x a IH]; intros i Hi; [cbn in Hi; lia|].
  destruct i as [|i]; [reflexivity|].
  cbn in Hi. cbn [array_set]. rewrite firstn_cons, IH by lia. reflexivity.
Qed.

Lemma map_seq_succ {A : Type} (f : nat -> A) (m : nat) :
  map f (seq 0 (S m)) = f 0%nat :: map (fun i => f (S i)) (seq 0 m).
Proof.
  cbn [seq map]. rewrite <- seq_shift, map_map. reflexivity.
Qed.

(** The loop fills the arrays from index [k] on with the modified Julian
    dates and the elevations of the instants it visits, one evaluator
    call for each. *)
Lemma sample_day_run {E : Externals} (mjd : Time -> Q)
      (s : SkyCoord) (l : EarthLocation)
      (unit : string) (dt : TimeDelta) (m : nat) :
  forall (k : nat) (times elev : list Q) (time : Time) (log : Log),
    length times = (k + m)%nat -> length elev = (k + m)%nat ->
    sample_day mjd s l unit dt (seq k m) times elev time log
    = (Ret ((firstn k times
             ++ map (fun i => mjd (advance dt i time)) (seq 0 m))%list,
            (firstn k elev
             ++ map (fun i => alt_deg (transform_to s (advance dt i time) l))
                    (seq 0 m))%list),
       (rev (map (fun i => advance dt i time) (seq 0 m)) ++ log)%list).
Proof.
  induction m as [|m IH]; intros k times elev time log Ht He.
  - cbn. unfold ret. rewrite !app_nil_r, !firstn_all2 by lia. reflexivity.
  - change (seq k (S m)) with (k :: seq (S k) m).
    cbn [sample_day]. unfold bind at 1.
    rewrite getAltaz_resolved_any_unit.
    rewrite IH by (rewrite length_array_set; lia).
    rewrite !firstn_array_set by lia.
    rewrite !map_seq_succ. cbn [rev advance].
    rewrite <- !app_assoc. reflexivity.
Qed.

(** X22.  When the arguments resolve and the number of values computed
    from [dt] is [n], the sampling loop of [plotElevation] visits [n]
    instants, the start and every [dt] seconds added to it: [times]
    holds the [mjd] of each, [elev] the elevation that the transform
    gives at each, and the evaluator is called exactly once for each,
    in that order. *)
Theorem plotElevation_samples_run {E : Externals}
        (day_steps : TimeDelta -> outcome Z) (mjd : Time -> Q)
        (source : PySource) (time : PyTime) (loc : PyLoc) (unit : string)
        (dt : Q) (log : Log) (t0 : Time) (l : EarthLocation) (s : SkyCoord)
        (n : nat) :
  getTime time None = Ret t0 ->
  getLoc loc "deg" = Ret l ->
  getSrc source (TimeObj t0) (LocEarth l) unit = Ret s ->
  day_steps (TimeDelta_sec dt) = Ret (Z.of_nat n) ->
  let instant := fun i => advance (TimeDelta_sec dt) i t0 in
  plotElevation_samples day_steps mjd source time loc unit dt log
  = (Ret (map (fun i => mjd (instant i)) (seq 0 n),
          map (fun i => alt_deg (transform_to s (instant i) l)) (seq 0 n)),
     (rev (map instant (seq 0 n)) ++ log)%list).
Proof.
  intros Ht Hl Hs Hn instant.
  unfold plotElevation_samples, bind at 1, lift at 1. rewrite Ht.
  unfold bind at 1, lift at 1. rewrite Hl.
  unfold bind at 1, lift at 1. rewrite Hs.
  unfold bind at 1, lift at 1. rewrite Hn.
  destruct (Z.ltb_spec (Z.of_nat n) 0) as [Hneg|_]; [lia|].
  rewrite Nat2Z.id.
  rewrite (sample_day_run mjd s l unit (TimeDelta_sec dt) n 0)
    by (rewrite repeat_length; reflexivity).
  reflexivity.
Qed.

Lemma plotElevation_samples_run_witness :
  let day_steps := fun dt : TimeDelta => Ret (Qfloor (1 / dt)) in
  let mjd := fun t : Time => t - (24000005 # 10) in
  let instant := fun i => advance (TimeDelta_sec 1800) i (1 # 3) in
  plotElevation_samples (E := catalogue) day_steps mjd
                        (SrcStr "Cyg A") (TimeNum (1 # 3))
                        (LocStr "Paris, France") "deg" 1800 []
  = (Ret (map (fun i => mjd (instant i)) (seq 0 48),
          map (fun i => alt_deg (transform_to (Externals := catalogue)
                                   (mkSkyCoord (299868 # 1000) (40734 # 1000))
                                   (instant i)
                                   (mkEarthLocation (488566 # 10000)
                                                    (23522 # 10000))))
              (seq 0 48)),
     (rev (map instant (seq 0 48)) ++ [])%list).
Proof.
  apply (plotElevation_samples_run (E := catalogue)
           (fun dt : TimeDelta => Ret (Qfloor (1 / dt)))
           (fun t : Time => t - (24000005 # 10))
           (SrcStr "Cyg A") (TimeNum (1 # 3)) (LocStr "Paris, France")
           "deg" 1800 []);
    reflexivity.
Defined.
